(** * Charge indicator (src/charge_indicator.c): a shallow embedding

    The module reads the charger's STAT line, keeps the atomic flag
    [is_charging], and drives three LED lines while charging.  The C code
    is stateful (one atomic cell, three GPIO outputs, the kernel clock), so
    it is embedded in a small state monad over a [world] record.  Every
    operation that the outside can observe (a GPIO write, an atomic store,
    a sleep, the installation of the interrupt, the start of the thread)
    is appended to the world's [trace], in program order. *)

From Stdlib Require Import ZArith List Bool Lia String.
Import ListNotations.
Local Open Scope Z_scope.

(** ** Build-time configuration (Kconfig symbols and devicetree status) *)

Record config : Type := Config {
  CONFIG_CHARGE_INDICATOR : bool;
  CONFIG_CHG_POLICY : bool;
  CONFIG_CHG_COLOR : Z;
  CONFIG_CHG_BATTERY_LEVEL_BASED_COLOR : bool;
  CONFIG_CHG_BATTERY_LEVEL_CRITICAL : Z;
  CONFIG_CHG_BATTERY_LEVEL_LOW : Z;
  CONFIG_CHG_BATTERY_LEVEL_HIGH : Z;
  CONFIG_CHG_BATTERY_COLOR_CRITICAL : Z;
  CONFIG_CHG_BATTERY_COLOR_LOW : Z;
  CONFIG_CHG_BATTERY_COLOR_MEDIUM : Z;
  CONFIG_CHG_BATTERY_COLOR_HIGH : Z;
  CONFIG_CHG_BATTERY_COLOR_MISSING : Z;
  (* DT_NODE_HAS_STATUS(LED_x_ALIAS, okay) for the three aliases *)
  led_red_okay : bool;
  led_green_okay : bool;
  led_blue_okay : bool
}.

(** [#if okay(red) && okay(green) && okay(blue) ... #else
     #define CHARGE_INDICATOR_DISABLE_LED 1 #endif] *)
Definition CHARGE_INDICATOR_DISABLE_LED (cfg : config) : bool :=
  negb (led_red_okay cfg && led_green_okay cfg && led_blue_okay cfg).

(** The same configuration with other battery thresholds. *)
Definition set_thresholds (cfg : config) (critical low high : Z) : config :=
  Config (CONFIG_CHARGE_INDICATOR cfg) (CONFIG_CHG_POLICY cfg)
         (CONFIG_CHG_COLOR cfg) (CONFIG_CHG_BATTERY_LEVEL_BASED_COLOR cfg)
         critical low high
         (CONFIG_CHG_BATTERY_COLOR_CRITICAL cfg)
         (CONFIG_CHG_BATTERY_COLOR_LOW cfg)
         (CONFIG_CHG_BATTERY_COLOR_MEDIUM cfg)
         (CONFIG_CHG_BATTERY_COLOR_HIGH cfg)
         (CONFIG_CHG_BATTERY_COLOR_MISSING cfg)
         (led_red_okay cfg) (led_green_okay cfg) (led_blue_okay cfg).

(** ** Platform constants (Zephyr's errno.h) *)

Definition ENODEV : Z := 19.
Definition ENOTSUP : Z := 134.

(** ** The world the module runs in *)

Inductive channel : Type := Red | Green | Blue.

Inductive event : Type :=
| GpioSet (c : channel) (value : Z)   (* gpio_pin_set on an LED line *)
| AtomicSet (value : Z)               (* atomic_set(&is_charging, _) *)
| Sleep (ms : Z)                      (* k_sleep *)
| IrqConfigure                        (* gpio_pin_interrupt_configure *)
| AddCallback                         (* gpio_add_callback(chg_handler) *)
| ThreadCreate.                       (* k_thread_create(charging_maint_task) *)

Record world : Type := World {
  uptime : Z;              (* kernel clock, in ms *)
  chg_stat : Z -> Z;       (* what gpio_pin_get_raw returns at each instant *)
  state_of_charge : Z;     (* what zmk_battery_state_of_charge returns *)
  is_charging : Z;         (* static atomic_t is_charging *)
  ledr : bool;             (* logical level last set on each LED line *)
  ledg : bool;
  ledb : bool;
  trace : list event
}.

Definition set_soc (w : world) (soc : Z) : world :=
  World (uptime w) (chg_stat w) soc (is_charging w)
        (ledr w) (ledg w) (ledb w) (trace w).

Definition set_flag (w : world) (v : Z) : world :=
  World (uptime w) (chg_stat w) (state_of_charge w) v
        (ledr w) (ledg w) (ledb w) (trace w).

Definition set_pin (w : world) (c : channel) (on : bool) : world :=
  match c with
  | Red => World (uptime w) (chg_stat w) (state_of_charge w) (is_charging w)
                 on (ledg w) (ledb w) (trace w)
  | Green => World (uptime w) (chg_stat w) (state_of_charge w) (is_charging w)
                   (ledr w) on (ledb w) (trace w)
  | Blue => World (uptime w) (chg_stat w) (state_of_charge w) (is_charging w)
                  (ledr w) (ledg w) on (trace w)
  end.

Definition advance (w : world) (ms : Z) : world :=
  World (uptime w + ms) (chg_stat w) (state_of_charge w) (is_charging w)
        (ledr w) (ledg w) (ledb w) (trace w).

Definition record (w : world) (e : event) : world :=
  World (uptime w) (chg_stat w) (state_of_charge w) (is_charging w)
        (ledr w) (ledg w) (ledb w) (trace w ++ [e]).

(** The three LED lines, as (red, green, blue). *)
Definition leds (w : world) : bool * bool * bool := (ledr w, ledg w, ledb w).

(** ** State monad *)

Definition M (A : Type) : Type := world -> A * world.

Definition mret {A : Type} (a : A) : M A := fun w => (a, w).

Definition bind {A B : Type} (m : M A) (k : A -> M B) : M B :=
  fun w => let (a, w') := m w in k a w'.

Declare Scope c_scope.
Delimit Scope c_scope with C.
Notation "x <- m ;; k" := (bind m (fun x => k))
  (at level 61, m at next level, right associativity) : c_scope.
Notation "m ;; k" := (bind m (fun _ => k))
  (at level 61, right associativity) : c_scope.
Local Open Scope c_scope.

(** ** Kernel and driver primitives *)

Definition k_sleep (ms : Z) : M unit :=
  fun w => (tt, record (advance w ms) (Sleep ms)).

Definition atomic_set (value : Z) : M unit :=
  fun w => (tt, record (set_flag w value) (AtomicSet value)).

Definition atomic_get : M Z := fun w => (is_charging w, w).

(** [gpio_pin_set(dev, pin, value)]: a non-zero value is logical "on". *)
Definition gpio_pin_set (c : channel) (value : Z) : M unit :=
  fun w => (tt, record (set_pin w c (negb (value =? 0))) (GpioSet c value)).

Definition gpio_pin_get_raw : M Z := fun w => (chg_stat w (uptime w), w).

Definition zmk_battery_state_of_charge : M Z :=
  fun w => (state_of_charge w, w).

(** Conversion to [uint8_t]. *)
Definition to_uint8 (z : Z) : Z := z mod 256.

(** ** LED helpers *)

Definition led_red (on : bool) : M unit :=
  gpio_pin_set Red (if on then 1 else 0).
Definition led_green (on : bool) : M unit :=
  gpio_pin_set Green (if on then 1 else 0).
Definition led_blue (on : bool) : M unit :=
  gpio_pin_set Blue (if on then 1 else 0).

(** [apply_color_code]: the switch over the color code. *)
Definition apply_color_code (color : Z) : M unit :=
  match color with
  | 0 => led_red false ;; led_green false ;; led_blue false
  | 1 => led_red true ;; led_green false ;; led_blue false
  | 2 => led_red false ;; led_green true ;; led_blue false
  | 3 => led_red true ;; led_green true ;; led_blue false
  | 4 => led_red false ;; led_green false ;; led_blue true
  | 5 => led_red true ;; led_green false ;; led_blue true
  | 6 => led_red false ;; led_green true ;; led_blue true
  | 7 => led_red true ;; led_green true ;; led_blue true
  | _ => led_red true ;; led_green false ;; led_blue false
  end.

(** [get_battery_level_color]: the percentage is stored in a [uint8_t]
    and compared, after integer promotion, with the Kconfig integers. *)
Definition get_battery_level_color (cfg : config) : M Z :=
  soc <- zmk_battery_state_of_charge ;;
  let battery_pct := to_uint8 soc in
  if (battery_pct <? 0) || (battery_pct >? 100) then
    mret (CONFIG_CHG_BATTERY_COLOR_MISSING cfg)
  else if battery_pct <? CONFIG_CHG_BATTERY_LEVEL_CRITICAL cfg then
    mret (CONFIG_CHG_BATTERY_COLOR_CRITICAL cfg)
  else if battery_pct <? CONFIG_CHG_BATTERY_LEVEL_LOW cfg then
    mret (CONFIG_CHG_BATTERY_COLOR_LOW cfg)
  else if battery_pct <? CONFIG_CHG_BATTERY_LEVEL_HIGH cfg then
    mret (CONFIG_CHG_BATTERY_COLOR_MEDIUM cfg)
  else
    mret (CONFIG_CHG_BATTERY_COLOR_HIGH cfg).

(** [read_charging]: raw level 0 means charging. *)
Definition read_charging : M bool :=
  raw <- gpio_pin_get_raw ;;
  mret (raw =? 0).

(** [apply_charging_color]: the nesting of the preprocessor conditionals
    is kept as it is in the source. *)
Definition apply_charging_color (cfg : config) (charging : bool) : M unit :=
  if negb (CHARGE_INDICATOR_DISABLE_LED cfg) then
    if charging then
      if CONFIG_CHG_POLICY cfg then
        led_red false ;; led_green false ;; led_blue false
      else if CONFIG_CHG_BATTERY_LEVEL_BASED_COLOR cfg then
        color <- get_battery_level_color cfg ;;
        apply_color_code color
      else
        apply_color_code (CONFIG_CHG_COLOR cfg)
    else
      led_red false ;; led_green false ;; led_blue false
  else
    mret tt.

(** [chg_handler]: the GPIO callback installed on both edges. *)
Definition chg_handler (cfg : config) : M unit :=
  k_sleep 8 ;;
  charging <- read_charging ;;
  atomic_set (Z.b2z charging) ;;
  apply_charging_color cfg charging.

(** Events of ZMK's event manager.  [as_zmk_battery_state_changed] returns
    the payload of a battery event and NULL for any other event. *)
Inductive zmk_event : Type :=
| battery_state_changed (soc : Z)
| other_event (name : string).

Definition as_zmk_battery_state_changed (eh : zmk_event) : option Z :=
  match eh with
  | battery_state_changed soc => Some soc
  | other_event _ => None
  end.

Definition battery_state_changed_listener (cfg : config) (eh : zmk_event)
  : M Z :=
  match as_zmk_battery_state_changed eh with
  | None => mret (- ENOTSUP)
  | Some _ =>
      flag <- atomic_get ;;
      (if negb (flag =? 0) then apply_charging_color cfg true else mret tt) ;;
      mret 0
  end.

(** One turn of the [while (true)] loop of [charging_maint_task]. *)
Definition charging_maint_iter (cfg : config) : M unit :=
  flag <- atomic_get ;;
  if negb (flag =? 0) then
    apply_charging_color cfg true ;;
    k_sleep 150
  else
    k_sleep 1000.

(** The first [n] turns of the loop (the loop itself never exits). *)
Fixpoint charging_maint_task (cfg : config) (n : nat) : M unit :=
  match n with
  | O => mret tt
  | S n' => charging_maint_iter cfg ;; charging_maint_task cfg n'
  end.

(** ** Bootstrap *)

(** What the drivers answer during [charge_indicator_init]. *)
Record board : Type := Board {
  chg_dev_ready : bool;        (* device_is_ready(chg_dev) *)
  ledr_dev_ready : bool;
  ledg_dev_ready : bool;
  ledb_dev_ready : bool;
  chg_pin_configure : Z;       (* gpio_pin_configure(chg_dev, ...) *)
  ledr_pin_configure : Z;
  ledg_pin_configure : Z;
  ledb_pin_configure : Z;
  chg_interrupt_configure : Z; (* gpio_pin_interrupt_configure *)
  chg_add_callback : Z         (* gpio_add_callback *)
}.

Definition gpio_pin_interrupt_configure (brd : board) : M Z :=
  fun w => (chg_interrupt_configure brd, record w IrqConfigure).

Definition gpio_add_callback (brd : board) : M Z :=
  fun w => (chg_add_callback brd, record w AddCallback).

Definition k_thread_create : M unit :=
  fun w => (tt, record w ThreadCreate).

(** [charge_indicator_init].  An early [return] of the C function is the
    [then] branch of the corresponding test; the blocks under
    [#ifndef CHARGE_INDICATOR_DISABLE_LED] are skipped when the LED aliases
    are missing. *)
Definition charge_indicator_init (cfg : config) (brd : board) : M Z :=
  if negb (CONFIG_CHARGE_INDICATOR cfg) then mret 0 else
  if negb (chg_dev_ready brd) then mret (- ENODEV) else
  if negb (CHARGE_INDICATOR_DISABLE_LED cfg) &&
     (negb (ledr_dev_ready brd) || negb (ledg_dev_ready brd)
      || negb (ledb_dev_ready brd))
  then mret (- ENODEV) else
  let ret := chg_pin_configure brd in
  if negb (ret =? 0) then mret ret else
  let led := negb (CHARGE_INDICATOR_DISABLE_LED cfg) in
  let ret := ledr_pin_configure brd in
  if led && negb (ret =? 0) then mret ret else
  let ret := ledg_pin_configure brd in
  if led && negb (ret =? 0) then mret ret else
  let ret := ledb_pin_configure brd in
  if led && negb (ret =? 0) then mret ret else
  k_sleep 20 ;;
  c1 <- read_charging ;;
  k_sleep 10 ;;
  c2 <- read_charging ;;
  let charging_init := c1 && c2 in
  atomic_set (Z.b2z charging_init) ;;
  apply_charging_color cfg charging_init ;;
  ret <- gpio_pin_interrupt_configure brd ;;
  if negb (ret =? 0) then mret ret else
  ret <- gpio_add_callback brd ;;
  if negb (ret =? 0) then mret ret else
  k_thread_create ;;
  mret 0.

(** ** Executions

    After bootstrap three contexts run the module's code: the edge
    interrupt, the event manager delivering an event, and the maintenance
    thread.  The external widget may write the LED lines at any time; its
    writes are not the module's and are not recorded in the trace.  The
    fuel gauge may change the percentage at any time.

    A step is a whole run of a handler: [run] interleaves the contexts
    between handler runs, not inside them.  The source takes no lock, so
    the interrupt can also run between the loop's [atomic_get] and its
    LED writes; [maint_after_read] and [listener_after_read] below are
    the halves of the loop turn and of the listener after that read, and
    the theorems that depend on where a run is interrupted are stated on
    them, not on [run]. *)
Inductive action : Type :=
| Irq                              (* an edge on STAT: chg_handler runs *)
| Notify (eh : zmk_event)          (* battery_state_changed_listener runs *)
| Maint                            (* one turn of charging_maint_task *)
| Widget (c : channel) (on : bool) (* the widget writes an LED line *)
| Gauge (soc : Z).                 (* the fuel gauge reports a new level *)

Definition run_action (cfg : config) (a : action) (w : world) : world :=
  match a with
  | Irq => snd (chg_handler cfg w)
  | Notify eh => snd (battery_state_changed_listener cfg eh w)
  | Maint => snd (charging_maint_iter cfg w)
  | Widget c on => set_pin w c on
  | Gauge soc => set_soc w soc
  end.

(** What remains of a turn of [charging_maint_task] once
    [atomic_get(&is_charging)] has returned [flag]. *)
Definition maint_after_read (cfg : config) (flag : Z) : M unit :=
  if negb (flag =? 0) then
    apply_charging_color cfg true ;;
    k_sleep 150
  else
    k_sleep 1000.

(** What remains of [battery_state_changed_listener], for a battery event,
    once [atomic_get(&is_charging)] has returned [flag]. *)
Definition listener_after_read (cfg : config) (flag : Z) : M Z :=
  (if negb (flag =? 0) then apply_charging_color cfg true else mret tt) ;;
  mret 0.

Definition run (cfg : config) (acts : list action) (w : world) : world :=
  fold_left (fun w a => run_action cfg a w) acts w.

(** ** Observations on traces *)

Definition is_gpio_set (e : event) : bool :=
  match e with GpioSet _ _ => true | _ => false end.

Definition is_atomic_set (e : event) : bool :=
  match e with AtomicSet _ => true | _ => false end.

Definition gpio_writes (t : list event) : list event := filter is_gpio_set t.

Definition atomic_writes (t : list event) : list event :=
  filter is_atomic_set t.

Definition is_irq (a : action) : bool :=
  match a with Irq => true | _ => false end.

(** The three writes that show [(red, green, blue)]. *)
Definition channel_writes (r g b : bool) : list event :=
  [GpioSet Red (Z.b2z r); GpioSet Green (Z.b2z g); GpioSet Blue (Z.b2z b)].

(** Bit-unpacking of a color code: bit0 = red, bit1 = green, bit2 = blue. *)
Definition unpack (c : Z) : bool * bool * bool :=
  (Z.testbit c 0, Z.testbit c 1, Z.testbit c 2).

(** ** The threshold rule in the words of the specification

    Percentage outside [0,100]: missing; else below the critical threshold:
    critical; else below the low threshold: low; else below the high
    threshold: medium; else high. *)
Definition threshold_color_spec (cfg : config) (pct : Z) : Z :=
  if (pct <? 0) || (100 <? pct) then CONFIG_CHG_BATTERY_COLOR_MISSING cfg
  else if pct <? CONFIG_CHG_BATTERY_LEVEL_CRITICAL cfg
       then CONFIG_CHG_BATTERY_COLOR_CRITICAL cfg
  else if pct <? CONFIG_CHG_BATTERY_LEVEL_LOW cfg
       then CONFIG_CHG_BATTERY_COLOR_LOW cfg
  else if pct <? CONFIG_CHG_BATTERY_LEVEL_HIGH cfg
       then CONFIG_CHG_BATTERY_COLOR_MEDIUM cfg
  else CONFIG_CHG_BATTERY_COLOR_HIGH cfg.

(** What [apply_charging_color cfg true] writes on the LED lines, if
    anything: the color shown while charging. *)
Definition charging_color (cfg : config) (w : world) : option Z :=
  if CHARGE_INDICATOR_DISABLE_LED cfg then None
  else if CONFIG_CHG_POLICY cfg then Some 0
  else if CONFIG_CHG_BATTERY_LEVEL_BASED_COLOR cfg
       then Some (fst (get_battery_level_color cfg w))
  else Some (CONFIG_CHG_COLOR cfg).

(** Codes outside [0,7] fall back to red. *)
Definition effective_code (c : Z) : Z :=
  if (0 <=? c) && (c <=? 7) then c else 1.

(** ** Sample configurations and worlds *)

Definition sample_config : config :=
  Config true false 5 false 10 30 80 1 3 2 7 4 true true true.

Definition idle_world : world :=
  World 0 (fun _ => 1) 50 0 false false false [].

Definition good_board : board :=
  Board true true true true 0 0 0 0 0 0.

(** The world after the three LED lines were written in the order red,
    green, blue. *)
Definition show (w : world) (rgb : bool * bool * bool) : world :=
  let '(r, g, b) := rgb in
  World (uptime w) (chg_stat w) (state_of_charge w) (is_charging w)
        r g b (trace w ++ channel_writes r g b).

(** A world in which the charger is connected and the flag is set. *)
Definition charging_world : world :=
  World 0 (fun _ => 0) 50 1 false false false [].

(** The charger has just been removed: the flag is still set and the lines
    still show magenta. *)
Definition unplugged_world : world :=
  World 100 (fun _ => 1) 50 1 true false true [].

Definition no_led_config : config :=
  Config true false 5 false 10 30 80 1 3 2 7 4 false false false.

Definition policy_config : config :=
  Config true true 5 true 10 30 80 1 3 2 7 4 true true true.

(** The world in which [charge_indicator_init] installs the interrupt:
    both samples taken, the flag stored, the initial state applied. *)
Definition after_initial_sample (cfg : config) (w : world) : world :=
  let c1 := chg_stat w (uptime w + 20) =? 0 in
  let c2 := chg_stat w (uptime w + 20 + 10) =? 0 in
  let charging_init := c1 && c2 in
  snd (apply_charging_color cfg charging_init
         (record (set_flag (record (advance (record (advance w 20) (Sleep 20))
                                            10) (Sleep 10))
                           (Z.b2z charging_init))
                 (AtomicSet (Z.b2z charging_init)))).

(** The same configuration with another fixed color and another setting
    of battery-level coloring. *)
Definition set_coloring (cfg : config) (fixed : Z) (level_based : bool)
  : config :=
  Config (CONFIG_CHARGE_INDICATOR cfg) (CONFIG_CHG_POLICY cfg)
         fixed level_based
         (CONFIG_CHG_BATTERY_LEVEL_CRITICAL cfg)
         (CONFIG_CHG_BATTERY_LEVEL_LOW cfg)
         (CONFIG_CHG_BATTERY_LEVEL_HIGH cfg)
         (CONFIG_CHG_BATTERY_COLOR_CRITICAL cfg)
         (CONFIG_CHG_BATTERY_COLOR_LOW cfg)
         (CONFIG_CHG_BATTERY_COLOR_MEDIUM cfg)
         (CONFIG_CHG_BATTERY_COLOR_HIGH cfg)
         (CONFIG_CHG_BATTERY_COLOR_MISSING cfg)
         (led_red_okay cfg) (led_green_okay cfg) (led_blue_okay cfg).

(** ** Further observations *)

(** What [apply_charging_color cfg charging] leaves on the three LED
    lines, if it writes them at all. *)
Definition policy_leds (cfg : config) (charging : bool) (w : world)
  : option (bool * bool * bool) :=
  if CHARGE_INDICATOR_DISABLE_LED cfg then None
  else if charging then
    if CONFIG_CHG_POLICY cfg then Some (false, false, false)
    else if CONFIG_CHG_BATTERY_LEVEL_BASED_COLOR cfg then
      Some (unpack (effective_code
              (threshold_color_spec cfg (to_uint8 (state_of_charge w)))))
    else Some (unpack (effective_code (CONFIG_CHG_COLOR cfg)))
  else Some (false, false, false).

(** The writes of a sequence of full red-green-blue updates. *)
Definition rgb_writes (ts : list (bool * bool * bool)) : list event :=
  flat_map (fun t => let '(r, g, b) := t in channel_writes r g b) ts.

Definition is_widget (a : action) : bool :=
  match a with Widget _ _ => true | _ => false end.

(** The same board with other answers from the LED drivers. *)
Definition set_led_drivers (brd : board) (rr gr br : bool) (rc gc bc : Z)
  : board :=
  Board (chg_dev_ready brd) rr gr br (chg_pin_configure brd) rc gc bc
        (chg_interrupt_configure brd) (chg_add_callback brd).

(** A board whose interrupt controller rejects the edge configuration. *)
Definition no_irq_board : board :=
  Board true true true true 0 0 0 0 (-22) 0.

(** A board whose STAT controller is not ready. *)
Definition dead_board : board :=
  Board false true true true 0 0 0 0 0 0.

(** A configuration with two of the three LED aliases only. *)
Definition two_led_config : config :=
  Config true false 5 false 10 30 80 1 3 2 7 4 true true false.

(** Battery-level coloring enabled, thresholds 10/30/80. *)
Definition level_config : config :=
  Config true false 5 true 10 30 80 1 3 2 7 4 true true true.

(** The GPIO writes of [apply_charging_color cfg charging]. *)
Definition policy_writes (cfg : config) (charging : bool) (w : world)
  : list event :=
  match policy_leds cfg charging w with
  | Some t => rgb_writes [t]
  | None => []
  end.

(** The charger is connected but the module has not run yet: the flag
    is clear and the lines are off. *)
Definition fresh_plugged_world : world :=
  World 0 (fun _ => 0) 50 0 false false false [].

(** Between the traces [before] and [after] of one call, the call wrote
    no LED line or exactly one complete red-green-blue update. *)
Definition at_most_one_triple (before after : list event) : Prop :=
  exists ts : list (bool * bool * bool),
    (List.length ts <= 1)%nat /\
    gpio_writes after = gpio_writes before ++ rgb_writes ts.

(** * Basic facts *)

Lemma three_writes (r g b : bool) (w : world) :
  (led_red r ;; led_green g ;; led_blue b) w = (tt, show w (r, g, b)).
Proof.
  unfold bind, led_red, led_green, led_blue, gpio_pin_set, show, record,
    set_pin, channel_writes; cbn.
  rewrite <- !app_assoc; cbn.
  destruct r, g, b; reflexivity.
Qed.

Lemma small_code_cases (c : Z) :
  0 <= c <= 7 ->
  c = 0 \/ c = 1 \/ c = 2 \/ c = 3 \/ c = 4 \/ c = 5 \/ c = 6 \/ c = 7.
Proof. lia. Qed.

Lemma apply_color_code_small (c : Z) (w : world) :
  0 <= c <= 7 -> apply_color_code c w = (tt, show w (unpack c)).
Proof.
  intros Hc.
  destruct (small_code_cases c Hc) as [E|[E|[E|[E|[E|[E|[E|E]]]]]]]; subst c;
    exact (three_writes _ _ _ w).
Qed.

Lemma apply_color_code_fallback (c : Z) (w : world) :
  c < 0 \/ 7 < c -> apply_color_code c w = (tt, show w (true, false, false)).
Proof.
  intros Hc.
  destruct c as [|p|p]; [lia| |exact (three_writes _ _ _ w)].
  destruct p as [[[q|q|]|[q|q|]|]|[[q|q|]|[q|q|]|]|];
    try lia; exact (three_writes _ _ _ w).
Qed.

Lemma apply_color_code_effective (c : Z) (w : world) :
  apply_color_code c w = (tt, show w (unpack (effective_code c))).
Proof.
  unfold effective_code.
  destruct (0 <=? c) eqn:E0; destruct (c <=? 7) eqn:E7; cbn [andb];
    try (rewrite apply_color_code_fallback by lia; reflexivity).
  apply apply_color_code_small; lia.
Qed.

Lemma get_battery_level_color_pure (cfg : config) (w : world) :
  snd (get_battery_level_color cfg w) = w.
Proof.
  unfold get_battery_level_color, bind, zmk_battery_state_of_charge, mret.
  repeat match goal with |- context [if ?b then _ else _] => destruct b end;
    reflexivity.
Qed.

Lemma apply_charging_color_true (cfg : config) (w : world) :
  apply_charging_color cfg true w =
  (tt, match charging_color cfg w with
       | Some c => show w (unpack (effective_code c))
       | None => w
       end).
Proof.
  unfold apply_charging_color, charging_color.
  destruct (CHARGE_INDICATOR_DISABLE_LED cfg); cbn [negb]; [reflexivity|].
  destruct (CONFIG_CHG_POLICY cfg); [exact (three_writes _ _ _ w)|].
  destruct (CONFIG_CHG_BATTERY_LEVEL_BASED_COLOR cfg).
  - unfold bind.
    pose proof (get_battery_level_color_pure cfg w) as Hp.
    destruct (get_battery_level_color cfg w) as [color w'].
    cbn [fst snd] in *. subst w'. apply apply_color_code_effective.
  - apply apply_color_code_effective.
Qed.

Lemma apply_charging_color_false (cfg : config) (w : world) :
  apply_charging_color cfg false w =
  (tt, if CHARGE_INDICATOR_DISABLE_LED cfg then w
       else show w (false, false, false)).
Proof.
  unfold apply_charging_color.
  destruct (CHARGE_INDICATOR_DISABLE_LED cfg); cbn [negb]; [reflexivity|].
  exact (three_writes _ _ _ w).
Qed.

(** * The color mapping *)

(** C4: for a code in [0,7] the three channels are driven as the bits of
    the code (bit0 red, bit1 green, bit2 blue), and any other integer is
    treated as code 1 (red only); codes 0, 5 and 7 give all off,
    red and blue, all on. *)
Theorem apply_color_code_bit_unpacking (c : Z) (w : world) :
  snd (apply_color_code c w) =
    show w (unpack (if (0 <=? c) && (c <=? 7) then c else 1)) /\
  apply_color_code c w =
    apply_color_code (if (0 <=? c) && (c <=? 7) then c else 1) w /\
  leds (snd (apply_color_code 0 w)) = (false, false, false) /\
  leds (snd (apply_color_code 5 w)) = (true, false, true) /\
  leds (snd (apply_color_code 7 w)) = (true, true, true) /\
  leds (snd (apply_color_code 1 w)) = (true, false, false).
Proof.
  split; [|split].
  - rewrite apply_color_code_effective. reflexivity.
  - rewrite !apply_color_code_effective. unfold effective_code.
    destruct ((0 <=? c) && (c <=? 7)) eqn:E; [rewrite E|]; reflexivity.
  - repeat split.
Qed.

(** C10: whatever integer is passed, and whatever the lines showed before,
    applying a color code writes each of the three channels exactly once
    (red, then green, then blue), so afterwards every line holds the value
    just written. *)
Theorem apply_color_code_writes_every_channel (c : Z) (w : world) :
  exists r g b : bool,
    trace (snd (apply_color_code c w)) =
      trace w ++ [GpioSet Red (Z.b2z r); GpioSet Green (Z.b2z g);
                  GpioSet Blue (Z.b2z b)] /\
    leds (snd (apply_color_code c w)) = (r, g, b) /\
    forall w' : world,
      leds (snd (apply_color_code c w')) = (r, g, b).
Proof.
  destruct (unpack (effective_code c)) as [[r g] b] eqn:E.
  exists r, g, b.
  repeat split; intros; rewrite apply_color_code_effective, E; reflexivity.
Qed.

(** C1: the battery-level color follows the threshold order of the
    specification for every percentage the code can read (an unsigned
    8-bit value); with thresholds 10/30/80 the percentages 5, 29, 79, 90
    give critical, low, medium, high, and 150 and -1 give missing. *)
Theorem get_battery_level_color_thresholds (cfg : config) (w : world)
  (Hu8 : 0 <= state_of_charge w <= 255) :
  get_battery_level_color cfg w =
    (threshold_color_spec cfg (state_of_charge w), w) /\
  let ex := set_thresholds cfg 10 30 80 in
  fst (get_battery_level_color ex (set_soc w 5)) =
    CONFIG_CHG_BATTERY_COLOR_CRITICAL cfg /\
  fst (get_battery_level_color ex (set_soc w 29)) =
    CONFIG_CHG_BATTERY_COLOR_LOW cfg /\
  fst (get_battery_level_color ex (set_soc w 79)) =
    CONFIG_CHG_BATTERY_COLOR_MEDIUM cfg /\
  fst (get_battery_level_color ex (set_soc w 90)) =
    CONFIG_CHG_BATTERY_COLOR_HIGH cfg /\
  fst (get_battery_level_color ex (set_soc w 150)) =
    CONFIG_CHG_BATTERY_COLOR_MISSING cfg /\
  fst (get_battery_level_color ex (set_soc w (-1))) =
    CONFIG_CHG_BATTERY_COLOR_MISSING cfg.
Proof.
  split; [|repeat split].
  unfold get_battery_level_color, threshold_color_spec, bind,
    zmk_battery_state_of_charge, mret, to_uint8.
  rewrite Z.mod_small by lia.
  rewrite Z.gtb_ltb.
  repeat match goal with |- context [if ?b then _ else _] => destruct b end;
    reflexivity.
Qed.

Lemma get_battery_level_color_thresholds_witness :
  0 <= state_of_charge (set_soc idle_world 20) <= 255 /\
  get_battery_level_color sample_config (set_soc idle_world 20) =
    (3, set_soc idle_world 20).
Proof.
  assert (H : 0 <= state_of_charge (set_soc idle_world 20) <= 255)
    by (cbn; lia).
  split; [exact H|].
  exact (proj1 (get_battery_level_color_thresholds sample_config
                  (set_soc idle_world 20) H)).
Defined.

(** * The charge sensor and the policy *)

Lemma chg_handler_unfold (cfg : config) (w : world) :
  chg_handler cfg w =
  let charging := chg_stat w (uptime w + 8) =? 0 in
  apply_charging_color cfg charging
    (record (set_flag (record (advance w 8) (Sleep 8)) (Z.b2z charging))
            (AtomicSet (Z.b2z charging))).
Proof. reflexivity. Qed.

Lemma init_success (cfg : config) (brd : board) (w : world) :
  CONFIG_CHARGE_INDICATOR cfg = true ->
  fst (charge_indicator_init cfg brd w) = 0 ->
  snd (charge_indicator_init cfg brd w) =
  record (record (record (after_initial_sample cfg w) IrqConfigure)
                 AddCallback) ThreadCreate.
Proof.
  intros Hen Hok. revert Hok.
  unfold charge_indicator_init. rewrite Hen. cbn [negb].
  destruct (chg_dev_ready brd); cbn [negb]; [|discriminate].
  destruct (negb (CHARGE_INDICATOR_DISABLE_LED cfg) && _); [discriminate|].
  destruct (chg_pin_configure brd =? 0) eqn:E1; cbn [negb];
    [|cbn; intros; lia].
  repeat match goal with
  | |- context [negb (CHARGE_INDICATOR_DISABLE_LED cfg) && negb (?x =? 0)] =>
      destruct (negb (CHARGE_INDICATOR_DISABLE_LED cfg) && negb (x =? 0)) eqn:?
  end.
  1-3: match goal with
       | H : _ && negb (_ =? 0) = true |- _ =>
           apply andb_true_iff in H; destruct H as [_ H]; cbn; intros; lia
       end.
  unfold after_initial_sample.
  cbv beta iota zeta delta [bind k_sleep read_charging gpio_pin_get_raw
    atomic_set gpio_pin_interrupt_configure gpio_add_callback
    k_thread_create mret].
  cbn [uptime chg_stat advance record set_flag].
  destruct (apply_charging_color cfg _ _) as [u w'].
  cbn [fst snd].
  destruct (chg_interrupt_configure brd =? 0) eqn:E2; cbn [negb];
    [|cbn; intros; lia].
  destruct (chg_add_callback brd =? 0) eqn:E3; cbn [negb];
    [|cbn; intros; lia].
  reflexivity.
Qed.


Lemma listener_unfold (cfg : config) (soc : Z) (w : world) :
  battery_state_changed_listener cfg (battery_state_changed soc) w =
  (0, if is_charging w =? 0 then w
      else snd (apply_charging_color cfg true w)).
Proof.
  cbv beta iota zeta delta [battery_state_changed_listener bind atomic_get
    as_zmk_battery_state_changed mret].
  destruct (is_charging w =? 0); cbn [negb]; [reflexivity|].
  destruct (apply_charging_color cfg true w); reflexivity.
Qed.

Lemma listener_other (cfg : config) (name : string) (w : world) :
  battery_state_changed_listener cfg (other_event name) w = (- ENOTSUP, w).
Proof. reflexivity. Qed.

Lemma maint_iter_unfold (cfg : config) (w : world) :
  charging_maint_iter cfg w =
  (tt, if is_charging w =? 0 then record (advance w 1000) (Sleep 1000)
       else record (advance (snd (apply_charging_color cfg true w)) 150)
                   (Sleep 150)).
Proof.
  cbv beta iota zeta delta [charging_maint_iter bind atomic_get k_sleep].
  destruct (is_charging w =? 0); cbn [negb]; [reflexivity|].
  destruct (apply_charging_color cfg true w); reflexivity.
Qed.

Lemma gpio_writes_app (t u : list event) :
  gpio_writes (t ++ u) = gpio_writes t ++ gpio_writes u.
Proof. apply filter_app. Qed.

Lemma atomic_writes_app (t u : list event) :
  atomic_writes (t ++ u) = atomic_writes t ++ atomic_writes u.
Proof. apply filter_app. Qed.

Lemma show_frame (w : world) (rgb : bool * bool * bool) :
  is_charging (show w rgb) = is_charging w /\
  uptime (show w rgb) = uptime w /\
  chg_stat (show w rgb) = chg_stat w /\
  state_of_charge (show w rgb) = state_of_charge w /\
  atomic_writes (trace (show w rgb)) = atomic_writes (trace w) /\
  leds (show w rgb) = rgb.
Proof.
  destruct rgb as [[r g] b]. cbn [show is_charging uptime chg_stat
    state_of_charge trace leds ledr ledg ledb].
  rewrite atomic_writes_app. cbn. rewrite app_nil_r. repeat split.
Qed.

(** [apply_charging_color] touches the LED lines and nothing else. *)
Lemma apply_charging_color_frame (cfg : config) (b : bool) (w : world) :
  is_charging (snd (apply_charging_color cfg b w)) = is_charging w /\
  uptime (snd (apply_charging_color cfg b w)) = uptime w /\
  chg_stat (snd (apply_charging_color cfg b w)) = chg_stat w /\
  state_of_charge (snd (apply_charging_color cfg b w)) = state_of_charge w /\
  atomic_writes (trace (snd (apply_charging_color cfg b w))) =
    atomic_writes (trace w).
Proof.
  destruct b.
  - rewrite apply_charging_color_true. cbn [snd].
    destruct (charging_color cfg w) as [c|]; [|repeat split].
    pose proof (show_frame w (unpack (effective_code c))). tauto.
  - rewrite apply_charging_color_false. cbn [snd].
    destruct (CHARGE_INDICATOR_DISABLE_LED cfg); [repeat split|].
    pose proof (show_frame w (false, false, false)). tauto.
Qed.

Lemma apply_charging_color_absent (cfg : config) (b : bool) (w : world) :
  CHARGE_INDICATOR_DISABLE_LED cfg = true ->
  apply_charging_color cfg b w = (tt, w).
Proof.
  intros Habs. unfold apply_charging_color. rewrite Habs. reflexivity.
Qed.

(** While the flag reads 0, nothing but the interrupt handler writes an
    LED line or changes the flag. *)
Lemma quiet_step (cfg : config) (a : action) (w : world) :
  is_irq a = false -> is_charging w = 0 ->
  is_charging (run_action cfg a w) = 0 /\
  gpio_writes (trace (run_action cfg a w)) = gpio_writes (trace w).
Proof.
  intros Ha Hw. destruct a as [|eh| |c on|lvl]; [discriminate| | | |].
  - destruct eh as [soc|name]; cbn [run_action].
    + rewrite listener_unfold, Hw. cbn. auto.
    + rewrite listener_other. cbn. auto.
  - cbn [run_action]. rewrite maint_iter_unfold, Hw.
    cbn. rewrite gpio_writes_app. cbn. rewrite app_nil_r. auto.
  - destruct c; cbn; auto.
  - cbn. auto.
Qed.

Lemma quiet_run (cfg : config) (acts : list action) (w : world) :
  forallb (fun a => negb (is_irq a)) acts = true -> is_charging w = 0 ->
  is_charging (run cfg acts w) = 0 /\
  gpio_writes (trace (run cfg acts w)) = gpio_writes (trace w).
Proof.
  revert w. induction acts as [|a acts IH]; intros w Hq Hw; [auto|].
  cbn [forallb] in Hq. apply andb_true_iff in Hq. destruct Hq as [Ha Hq].
  apply negb_true_iff in Ha.
  destruct (quiet_step cfg a w Ha Hw) as [Hf Hg].
  destruct (IH (run_action cfg a w) Hq Hf) as [Hf' Hg'].
  unfold run in *. cbn [fold_left]. rewrite <- Hg. auto.
Qed.

Lemma get_battery_level_color_uint8 (cfg : config) (w : world) :
  get_battery_level_color cfg w =
  (threshold_color_spec cfg (to_uint8 (state_of_charge w)), w).
Proof.
  unfold get_battery_level_color, threshold_color_spec, bind,
    zmk_battery_state_of_charge, mret.
  rewrite Z.gtb_ltb.
  repeat match goal with |- context [if ?b then _ else _] => destruct b end;
    reflexivity.
Qed.

Lemma maint_task_S (cfg : config) (n : nat) (w : world) :
  charging_maint_task cfg (S n) w =
  charging_maint_task cfg n (snd (charging_maint_iter cfg w)).
Proof.
  cbn [charging_maint_task]. unfold bind.
  destruct (charging_maint_iter cfg w); reflexivity.
Qed.

Lemma maint_idle (cfg : config) (n : nat) (w : world) :
  is_charging w = 0 ->
  trace (snd (charging_maint_task cfg n w)) =
    trace w ++ repeat (Sleep 1000) n /\
  leds (snd (charging_maint_task cfg n w)) = leds w /\
  is_charging (snd (charging_maint_task cfg n w)) = 0.
Proof.
  revert w. induction n as [|n IH]; intros w Hw.
  - cbn. rewrite app_nil_r. auto.
  - rewrite maint_task_S, maint_iter_unfold, Hw. cbn [Z.eqb snd].
    destruct (IH (record (advance w 1000) (Sleep 1000)) Hw) as (Ht & Hl & Hf).
    rewrite Ht, Hl, Hf. cbn. rewrite <- app_assoc. auto.
Qed.

Lemma absent_step (cfg : config) (a : action) (w : world) :
  CHARGE_INDICATOR_DISABLE_LED cfg = true ->
  gpio_writes (trace (run_action cfg a w)) = gpio_writes (trace w).
Proof.
  intros Habs. destruct a as [|eh| |c on|lvl]; cbn [run_action].
  - rewrite chg_handler_unfold. cbv zeta.
    rewrite apply_charging_color_absent by exact Habs.
    cbn. rewrite !gpio_writes_app. cbn. rewrite !app_nil_r. reflexivity.
  - destruct eh as [soc|name]; [|reflexivity].
    rewrite listener_unfold, apply_charging_color_absent by exact Habs.
    destruct (is_charging w =? 0); reflexivity.
  - rewrite maint_iter_unfold, apply_charging_color_absent by exact Habs.
    destruct (is_charging w =? 0); cbn; rewrite gpio_writes_app; cbn;
      rewrite app_nil_r; reflexivity.
  - destruct c; reflexivity.
  - reflexivity.
Qed.

(** What each context does to the flag and to the record of its stores. *)
Lemma flag_step (cfg : config) (a : action) (w : world) :
  is_charging (run_action cfg a w) =
    (if is_irq a then Z.b2z (chg_stat w (uptime w + 8) =? 0)
     else is_charging w) /\
  atomic_writes (trace (run_action cfg a w)) =
    atomic_writes (trace w) ++
    (if is_irq a then [AtomicSet (Z.b2z (chg_stat w (uptime w + 8) =? 0))]
     else []).
Proof.
  destruct a as [|eh| |c on|lvl]; cbn [run_action is_irq].
  - rewrite chg_handler_unfold. cbv zeta.
    match goal with |- context [apply_charging_color cfg ?b ?x] =>
      destruct (apply_charging_color_frame cfg b x) as (Hf & _ & _ & _ & Ha)
    end.
    rewrite Hf, Ha. cbn. rewrite !atomic_writes_app. cbn.
    rewrite app_nil_r. auto.
  - rewrite app_nil_r. destruct eh as [soc|name]; [|auto].
    rewrite listener_unfold. cbn [snd].
    destruct (is_charging w =? 0); [auto|].
    destruct (apply_charging_color_frame cfg true w) as (Hf & _ & _ & _ & Ha).
    auto.
  - rewrite app_nil_r, maint_iter_unfold. cbn [snd].
    destruct (is_charging w =? 0); cbn; rewrite atomic_writes_app; cbn;
      rewrite app_nil_r; [auto|].
    destruct (apply_charging_color_frame cfg true w) as (Hf & _ & _ & _ & Ha).
    auto.
  - rewrite app_nil_r. destruct c; auto.
  - rewrite app_nil_r. auto.
Qed.

(** * The policy while charging *)

(** C6: with the LED lines present and the force-off policy enabled,
    applying the charging state writes "off" to the three channels and
    leaves them all off, whatever the fixed color and the battery-level
    coloring setting are. *)
Theorem force_off_policy_drives_all_off (cfg : config) (w : world)
  (Hled : CHARGE_INDICATOR_DISABLE_LED cfg = false)
  (Hpol : CONFIG_CHG_POLICY cfg = true) :
  trace (snd (apply_charging_color cfg true w)) =
    trace w ++ [GpioSet Red 0; GpioSet Green 0; GpioSet Blue 0] /\
  leds (snd (apply_charging_color cfg true w)) = (false, false, false) /\
  forall (fixed : Z) (level_based : bool),
    apply_charging_color (set_coloring cfg fixed level_based) true w =
    apply_charging_color cfg true w.
Proof.
  assert (Hoff : forall c, CHARGE_INDICATOR_DISABLE_LED c = false ->
            CONFIG_CHG_POLICY c = true ->
            apply_charging_color c true w = (tt, show w (false, false, false))).
  { intros c H1 H2. rewrite apply_charging_color_true.
    unfold charging_color. rewrite H1, H2. reflexivity. }
  rewrite (Hoff cfg Hled Hpol). repeat split.
  intros fixed level_based. apply Hoff; assumption.
Qed.

Lemma force_off_policy_drives_all_off_witness :
  CHARGE_INDICATOR_DISABLE_LED policy_config = false /\
  CONFIG_CHG_POLICY policy_config = true /\
  leds (snd (apply_charging_color policy_config true unplugged_world)) =
    (false, false, false).
Proof.
  assert (Hled : CHARGE_INDICATOR_DISABLE_LED policy_config = false)
    by reflexivity.
  assert (Hpol : CONFIG_CHG_POLICY policy_config = true) by reflexivity.
  split; [exact Hled|split; [exact Hpol|]].
  exact (proj1 (proj2 (force_off_policy_drives_all_off policy_config
                         unplugged_world Hled Hpol))).
Defined.

(** * The battery event listener *)

(** C2, as stated, fails: with battery-level coloring disabled and the flag
    set, a battery event makes the listener write the fixed color (5,
    magenta) to the LED lines. *)
Lemma listener_writes_with_level_coloring_disabled :
  CONFIG_CHG_BATTERY_LEVEL_BASED_COLOR sample_config = false /\
  trace charging_world = [] /\
  trace (snd (battery_state_changed_listener sample_config
                (battery_state_changed 50) charging_world)) =
    [GpioSet Red 1; GpioSet Green 0; GpioSet Blue 1].
Proof. repeat split. Qed.

(** C2, amended: on a battery event the listener writes nothing when the
    flag is clear; when the flag is set it re-applies the charging policy
    whether battery-level coloring is enabled or not: nothing without LED
    lines, all off under the force-off policy, the threshold color of the
    current percentage with battery-level coloring, and the fixed color
    otherwise. *)
Theorem listener_reapplies_while_charging
  (cfg : config) (soc : Z) (w : world) :
  snd (battery_state_changed_listener cfg (battery_state_changed soc) w) =
    if is_charging w =? 0 then w
    else if CHARGE_INDICATOR_DISABLE_LED cfg then w
    else if CONFIG_CHG_POLICY cfg then show w (false, false, false)
    else if CONFIG_CHG_BATTERY_LEVEL_BASED_COLOR cfg then
      show w (unpack (effective_code
        (threshold_color_spec cfg (to_uint8 (state_of_charge w)))))
    else show w (unpack (effective_code (CONFIG_CHG_COLOR cfg))).
Proof.
  rewrite listener_unfold. cbn [snd].
  destruct (is_charging w =? 0); [reflexivity|].
  rewrite apply_charging_color_true. cbn [snd]. unfold charging_color.
  destruct (CHARGE_INDICATOR_DISABLE_LED cfg); [reflexivity|].
  destruct (CONFIG_CHG_POLICY cfg); [reflexivity|].
  destruct (CONFIG_CHG_BATTERY_LEVEL_BASED_COLOR cfg); [|reflexivity].
  rewrite get_battery_level_color_uint8. reflexivity.
Qed.

(** C3, as stated, fails: an event that is not a battery event makes the
    listener return -ENOTSUP, a negative error code. *)
Lemma listener_rejects_other_event :
  fst (battery_state_changed_listener sample_config
         (other_event "position_state_changed") idle_world) = -134 /\
  fst (battery_state_changed_listener sample_config
         (other_event "position_state_changed") idle_world) <> 0.
Proof. split; [reflexivity|discriminate]. Qed.

(** C3, amended: the listener returns 0 for every battery event; for any
    other event it changes nothing and returns -ENOTSUP, which is
    negative. *)
Theorem listener_return_value (cfg : config) (eh : zmk_event) (w : world) :
  match as_zmk_battery_state_changed eh with
  | Some _ => fst (battery_state_changed_listener cfg eh w) = 0
  | None => battery_state_changed_listener cfg eh w = (- ENOTSUP, w) /\
            - ENOTSUP < 0
  end.
Proof.
  destruct eh as [soc|name]; cbn [as_zmk_battery_state_changed].
  - rewrite listener_unfold. reflexivity.
  - split; [reflexivity|unfold ENOTSUP; lia].
Qed.

(** * The edge handler and the maintenance thread *)

(** C7: when the line reads "not charging" after the debounce delay, the
    edge handler clears the flag and writes "off" once to each of the three
    channels; from there the maintenance loop only sleeps, one second per
    turn, and no sequence of battery events, loop turns and widget writes
    makes the module write an LED line or set the flag before the next
    edge. *)
Theorem not_charging_edge_then_idle
  (cfg : config) (w : world) (acts : list action)
  (Hled : CHARGE_INDICATOR_DISABLE_LED cfg = false)
  (Hraw : chg_stat w (uptime w + 8) <> 0)
  (Hquiet : forallb (fun a => negb (is_irq a)) acts = true) :
  let w1 := snd (chg_handler cfg w) in
  is_charging w1 = 0 /\
  trace w1 = trace w ++ [Sleep 8; AtomicSet 0; GpioSet Red 0;
                         GpioSet Green 0; GpioSet Blue 0] /\
  leds w1 = (false, false, false) /\
  (forall n : nat,
     trace (snd (charging_maint_task cfg n w1)) =
       trace w1 ++ repeat (Sleep 1000) n /\
     leds (snd (charging_maint_task cfg n w1)) = leds w1 /\
     is_charging (snd (charging_maint_task cfg n w1)) = 0) /\
  gpio_writes (trace (run cfg acts w1)) = gpio_writes (trace w1) /\
  is_charging (run cfg acts w1) = 0.
Proof.
  cbv zeta.
  assert (Hw1 : snd (chg_handler cfg w) =
    show (record (set_flag (record (advance w 8) (Sleep 8)) 0) (AtomicSet 0))
         (false, false, false)).
  { rewrite chg_handler_unfold. cbv zeta.
    apply Z.eqb_neq in Hraw. rewrite Hraw.
    rewrite apply_charging_color_false, Hled. reflexivity. }
  assert (Hflag : is_charging (snd (chg_handler cfg w)) = 0)
    by (rewrite Hw1; reflexivity).
  split; [exact Hflag|].
  split; [rewrite Hw1; cbn; rewrite <- !app_assoc; reflexivity|].
  split; [rewrite Hw1; reflexivity|].
  split; [intros n; apply maint_idle; exact Hflag|].
  destruct (quiet_run cfg acts _ Hquiet Hflag) as [Hf Hg]. auto.
Qed.

Lemma not_charging_edge_then_idle_witness :
  CHARGE_INDICATOR_DISABLE_LED sample_config = false /\
  chg_stat unplugged_world (uptime unplugged_world + 8) <> 0 /\
  forallb (fun a => negb (is_irq a))
    [Maint; Notify (battery_state_changed 40); Widget Green true; Maint]
    = true /\
  gpio_writes
    (trace (run sample_config
              [Maint; Notify (battery_state_changed 40); Widget Green true;
               Maint]
              (snd (chg_handler sample_config unplugged_world)))) =
  gpio_writes (trace (snd (chg_handler sample_config unplugged_world))).
Proof.
  assert (Hled : CHARGE_INDICATOR_DISABLE_LED sample_config = false)
    by reflexivity.
  assert (Hraw : chg_stat unplugged_world (uptime unplugged_world + 8) <> 0)
    by (cbn; lia).
  assert (Hquiet : forallb (fun a => negb (is_irq a))
            [Maint; Notify (battery_state_changed 40); Widget Green true;
             Maint] = true) by reflexivity.
  split; [exact Hled|split; [exact Hraw|split; [exact Hquiet|]]].
  exact (proj1 (proj2 (proj2 (proj2 (proj2
    (not_charging_edge_then_idle sample_config unplugged_world _
       Hled Hraw Hquiet)))))).
Defined.

(** C8: without LED lines, applying a charging state changes nothing at
    all, and no execution of the module writes an LED line; the edge
    handler still stores the debounced reading in the flag, where
    [atomic_get] reads it back. *)
Theorem led_absent_is_noop (cfg : config) (w : world) (acts : list action)
  (Habs : CHARGE_INDICATOR_DISABLE_LED cfg = true) :
  (forall (charging : bool) (w' : world),
     apply_charging_color cfg charging w' = (tt, w')) /\
  gpio_writes (trace (run cfg acts w)) = gpio_writes (trace w) /\
  is_charging (snd (chg_handler cfg w)) =
    Z.b2z (chg_stat w (uptime w + 8) =? 0) /\
  fst (atomic_get (run_action cfg Irq w)) =
    Z.b2z (chg_stat w (uptime w + 8) =? 0) /\
  leds (snd (chg_handler cfg w)) = leds w /\
  trace (snd (chg_handler cfg w)) =
    trace w ++ [Sleep 8; AtomicSet (Z.b2z (chg_stat w (uptime w + 8) =? 0))].
Proof.
  split; [intros; apply apply_charging_color_absent; exact Habs|].
  split.
  { revert w. induction acts as [|a acts IH]; intros w; [reflexivity|].
    unfold run in *. cbn [fold_left]. rewrite IH.
    apply absent_step; exact Habs. }
  unfold atomic_get. cbn [run_action fst].
  rewrite chg_handler_unfold. cbv zeta.
  rewrite apply_charging_color_absent by exact Habs.
  cbn. rewrite <- app_assoc. repeat split.
Qed.

Lemma led_absent_is_noop_witness :
  CHARGE_INDICATOR_DISABLE_LED no_led_config = true /\
  is_charging (snd (chg_handler no_led_config unplugged_world)) = 0.
Proof.
  assert (Habs : CHARGE_INDICATOR_DISABLE_LED no_led_config = true)
    by reflexivity.
  split; [exact Habs|].
  exact (proj1 (proj2 (proj2
    (led_absent_is_noop no_led_config unplugged_world [Irq; Maint] Habs)))).
Defined.

(** C9: the flag is stored once by a successful bootstrap (the debounced
    initial sample) and once by every run of the edge handler; the battery
    listener, the maintenance loop and the widget never store it and leave
    its value as it was, so in an execution after bootstrap the stores to
    the flag are the bootstrap's and one for each interrupt. *)
Theorem flag_written_only_by_charge_sensor
  (cfg : config) (brd : board) (w : world)
  (Hen : CONFIG_CHARGE_INDICATOR cfg = true)
  (Hok : fst (charge_indicator_init cfg brd w) = 0) :
  let w0 := snd (charge_indicator_init cfg brd w) in
  atomic_writes (trace w0) =
    atomic_writes (trace w) ++ [AtomicSet (is_charging w0)] /\
  (forall (a : action) (w' : world),
     is_charging (run_action cfg a w') =
       (if is_irq a then Z.b2z (chg_stat w' (uptime w' + 8) =? 0)
        else is_charging w') /\
     atomic_writes (trace (run_action cfg a w')) =
       atomic_writes (trace w') ++
       (if is_irq a
        then [AtomicSet (Z.b2z (chg_stat w' (uptime w' + 8) =? 0))]
        else [])) /\
  (forall acts : list action,
     List.length (atomic_writes (trace (run cfg acts w0))) =
     (List.length (atomic_writes (trace w)) + 1 + List.length (filter is_irq acts))%nat).
Proof.
  cbv zeta.
  assert (H0 : atomic_writes
                 (trace (snd (charge_indicator_init cfg brd w))) =
               atomic_writes (trace w) ++
               [AtomicSet (is_charging
                             (snd (charge_indicator_init cfg brd w)))]).
  { rewrite (init_success cfg brd w Hen Hok).
    cbn [trace record is_charging]. rewrite !atomic_writes_app. cbn.
    rewrite !app_nil_r. unfold after_initial_sample. cbv zeta.
    match goal with |- context [apply_charging_color cfg ?b ?x] =>
      destruct (apply_charging_color_frame cfg b x) as (Hf & _ & _ & _ & Ha)
    end.
    rewrite Hf, Ha. cbn. rewrite !atomic_writes_app. cbn.
    rewrite !app_nil_r. reflexivity. }
  split; [exact H0|].
  split; [intros a w'; apply flag_step|].
  intros acts.
  assert (Hrun : forall l v,
            List.length (atomic_writes (trace (run cfg l v))) =
            (List.length (atomic_writes (trace v)) + List.length (filter is_irq l))%nat).
  { induction l as [|a l IH]; intros v; [cbn; lia|].
    unfold run in *. cbn [fold_left filter]. rewrite IH.
    destruct (flag_step cfg a v) as [_ Ha]. rewrite Ha, length_app.
    destruct (is_irq a); cbn; lia. }
  rewrite Hrun, H0, length_app. cbn. lia.
Qed.

Lemma flag_written_only_by_charge_sensor_witness :
  CONFIG_CHARGE_INDICATOR sample_config = true /\
  fst (charge_indicator_init sample_config good_board charging_world) = 0 /\
  List.length (atomic_writes
            (trace (run sample_config
                      [Maint; Irq; Notify (battery_state_changed 40); Irq]
                      (snd (charge_indicator_init sample_config good_board
                              charging_world))))) = 3%nat.
Proof.
  assert (Hen : CONFIG_CHARGE_INDICATOR sample_config = true)
    by reflexivity.
  assert (Hok : fst (charge_indicator_init sample_config good_board
                       charging_world) = 0) by reflexivity.
  split; [exact Hen|split; [exact Hok|]].
  exact (proj2 (proj2 (flag_written_only_by_charge_sensor sample_config
                         good_board charging_world Hen Hok))
           [Maint; Irq; Notify (battery_state_changed 40); Irq]).
Defined.

(** * Further properties of the bootstrap *)

(** [charge_indicator_init], one early return after the other. *)
Lemma init_unfold (cfg : config) (brd : board) (w : world) :
  charge_indicator_init cfg brd w =
  let led := negb (CHARGE_INDICATOR_DISABLE_LED cfg) in
  if negb (CONFIG_CHARGE_INDICATOR cfg) then (0, w) else
  if negb (chg_dev_ready brd) then (- ENODEV, w) else
  if led && (negb (ledr_dev_ready brd) || negb (ledg_dev_ready brd)
             || negb (ledb_dev_ready brd)) then (- ENODEV, w) else
  if negb (chg_pin_configure brd =? 0) then (chg_pin_configure brd, w) else
  if led && negb (ledr_pin_configure brd =? 0)
  then (ledr_pin_configure brd, w) else
  if led && negb (ledg_pin_configure brd =? 0)
  then (ledg_pin_configure brd, w) else
  if led && negb (ledb_pin_configure brd =? 0)
  then (ledb_pin_configure brd, w) else
  let w1 := record (after_initial_sample cfg w) IrqConfigure in
  if negb (chg_interrupt_configure brd =? 0)
  then (chg_interrupt_configure brd, w1) else
  let w2 := record w1 AddCallback in
  if negb (chg_add_callback brd =? 0) then (chg_add_callback brd, w2) else
  (0, record w2 ThreadCreate).
Proof.
  unfold charge_indicator_init. cbv zeta.
  destruct (negb (CONFIG_CHARGE_INDICATOR cfg)); [reflexivity|].
  destruct (negb (chg_dev_ready brd)); [reflexivity|].
  destruct (negb (CHARGE_INDICATOR_DISABLE_LED cfg) && (_ || _));
    [reflexivity|].
  destruct (negb (chg_pin_configure brd =? 0)); [reflexivity|].
  destruct (negb (CHARGE_INDICATOR_DISABLE_LED cfg) &&
            negb (ledr_pin_configure brd =? 0)); [reflexivity|].
  destruct (negb (CHARGE_INDICATOR_DISABLE_LED cfg) &&
            negb (ledg_pin_configure brd =? 0)); [reflexivity|].
  destruct (negb (CHARGE_INDICATOR_DISABLE_LED cfg) &&
            negb (ledb_pin_configure brd =? 0)); [reflexivity|].
  unfold after_initial_sample.
  cbv beta iota zeta delta [bind k_sleep read_charging gpio_pin_get_raw
    atomic_set gpio_pin_interrupt_configure gpio_add_callback
    k_thread_create mret].
  cbn [uptime chg_stat advance record set_flag].
  destruct (apply_charging_color cfg _ _) as [u w'].
  cbn [fst snd].
  destruct (negb (chg_interrupt_configure brd =? 0)); [reflexivity|].
  destruct (negb (chg_add_callback brd =? 0)); reflexivity.
Qed.

(** X1: with the feature enabled, bootstrap reports success exactly when
    the STAT controller is ready, every pin configuration, the interrupt
    configuration and the callback registration return 0, and, if the three
    LED aliases are present, the three LED controllers are ready and their
    pins configure. *)
Theorem init_succeeds_iff (cfg : config) (brd : board) (w : world)
  (Hen : CONFIG_CHARGE_INDICATOR cfg = true) :
  fst (charge_indicator_init cfg brd w) = 0 <->
  chg_dev_ready brd = true /\
  chg_pin_configure brd = 0 /\
  chg_interrupt_configure brd = 0 /\
  chg_add_callback brd = 0 /\
  (CHARGE_INDICATOR_DISABLE_LED cfg = false ->
   ledr_dev_ready brd = true /\ ledg_dev_ready brd = true /\
   ledb_dev_ready brd = true /\
   ledr_pin_configure brd = 0 /\ ledg_pin_configure brd = 0 /\
   ledb_pin_configure brd = 0).
Proof.
  rewrite init_unfold, Hen. cbv zeta. cbn [negb].
  destruct (CHARGE_INDICATOR_DISABLE_LED cfg); cbn [negb andb];
  destruct (chg_dev_ready brd); cbn [negb];
    try (unfold ENODEV; cbn [fst]; split; [lia|intros (H & _); discriminate]).
  - repeat match goal with
    | |- context [if negb (?x =? 0) then _ else _] =>
        destruct (Z.eqb_spec x 0); cbn [negb]
    end; cbn [fst]; split; intros; repeat split; try lia; try discriminate;
      try tauto.
  - destruct (ledr_dev_ready brd), (ledg_dev_ready brd), (ledb_dev_ready brd);
      cbn [negb orb];
      try (unfold ENODEV; cbn [fst]; split;
           [lia|intros (_ & _ & _ & _ & H); destruct (H eq_refl) as (? & ? & ? & _);
            discriminate]).
    repeat match goal with
    | |- context [if negb (?x =? 0) then _ else _] =>
        destruct (Z.eqb_spec x 0); cbn [negb]
    end; cbn [fst]; split; intros; repeat split; try lia; try discriminate;
      try tauto.
    all: try (match goal with
              | H : _ /\ _ |- _ => destruct H as (_ & ? & ? & ? & H);
                  destruct (H eq_refl) as (_ & _ & _ & ? & ? & ?); lia
              end).
Qed.

Lemma init_succeeds_iff_witness :
  CONFIG_CHARGE_INDICATOR sample_config = true /\
  fst (charge_indicator_init sample_config good_board idle_world) = 0.
Proof.
  assert (Hen : CONFIG_CHARGE_INDICATOR sample_config = true)
    by reflexivity.
  split; [exact Hen|].
  apply (proj2 (init_succeeds_iff sample_config good_board idle_world Hen)).
  repeat split.
Defined.

Lemma apply_charging_color_policy (cfg : config) (b : bool) (w : world) :
  apply_charging_color cfg b w =
  (tt, match policy_leds cfg b w with
       | Some t => show w t
       | None => w
       end).
Proof.
  unfold policy_leds. destruct b.
  - rewrite apply_charging_color_true. unfold charging_color.
    destruct (CHARGE_INDICATOR_DISABLE_LED cfg); [reflexivity|].
    destruct (CONFIG_CHG_POLICY cfg); [reflexivity|].
    destruct (CONFIG_CHG_BATTERY_LEVEL_BASED_COLOR cfg); [|reflexivity].
    rewrite get_battery_level_color_uint8. reflexivity.
  - rewrite apply_charging_color_false.
    destruct (CHARGE_INDICATOR_DISABLE_LED cfg); reflexivity.
Qed.

Lemma policy_leds_soc (cfg : config) (b : bool) (w1 w2 : world) :
  state_of_charge w1 = state_of_charge w2 ->
  policy_leds cfg b w1 = policy_leds cfg b w2.
Proof. intros H. unfold policy_leds. rewrite H. reflexivity. Qed.

Lemma policy_leds_present (cfg : config) (b : bool) (w : world) :
  CHARGE_INDICATOR_DISABLE_LED cfg = false ->
  exists t, policy_leds cfg b w = Some t.
Proof.
  intros H. unfold policy_leds. rewrite H.
  destruct b; [|eauto].
  destruct (CONFIG_CHG_POLICY cfg); [eauto|].
  destruct (CONFIG_CHG_BATTERY_LEVEL_BASED_COLOR cfg); eauto.
Qed.

Lemma show_trace (w : world) (t : bool * bool * bool) :
  trace (show w t) = trace w ++ rgb_writes [t].
Proof.
  destruct t as [[r g] b]. cbn. reflexivity.
Qed.

Lemma apply_charging_color_trace (cfg : config) (b : bool) (w : world) :
  trace (snd (apply_charging_color cfg b w)) =
  trace w ++ policy_writes cfg b w.
Proof.
  rewrite apply_charging_color_policy. unfold policy_writes. cbn [snd].
  destruct (policy_leds cfg b w) as [t|].
  - apply show_trace.
  - rewrite app_nil_r. reflexivity.
Qed.

Lemma gpio_writes_rgb (ts : list (bool * bool * bool)) :
  gpio_writes (rgb_writes ts) = rgb_writes ts.
Proof.
  induction ts as [|[[r g] b] ts IH]; [reflexivity|].
  change (rgb_writes ((r, g, b) :: ts))
    with (channel_writes r g b ++ rgb_writes ts).
  rewrite gpio_writes_app, IH. reflexivity.
Qed.

Lemma after_initial_sample_trace (cfg : config) (w : world) :
  let c := (chg_stat w (uptime w + 20) =? 0) &&
           (chg_stat w (uptime w + 30) =? 0) in
  trace (after_initial_sample cfg w) =
    trace w ++ [Sleep 20; Sleep 10; AtomicSet (Z.b2z c)] ++
    policy_writes cfg c w /\
  uptime (after_initial_sample cfg w) = uptime w + 30 /\
  is_charging (after_initial_sample cfg w) = Z.b2z c /\
  state_of_charge (after_initial_sample cfg w) = state_of_charge w /\
  (CHARGE_INDICATOR_DISABLE_LED cfg = false ->
   Some (leds (after_initial_sample cfg w)) = policy_leds cfg c w).
Proof.
  cbv zeta. unfold after_initial_sample. cbv zeta.
  replace (uptime w + 20 + 10) with (uptime w + 30) by lia.
  set (c := (chg_stat w (uptime w + 20) =? 0) &&
            (chg_stat w (uptime w + 30) =? 0)).
  set (x := record (set_flag (record (advance (record (advance w 20)
                (Sleep 20)) 10) (Sleep 10)) (Z.b2z c)) (AtomicSet (Z.b2z c))).
  assert (Hp : policy_leds cfg c x = policy_leds cfg c w)
    by (apply policy_leds_soc; reflexivity).
  destruct (apply_charging_color_frame cfg c x) as (Hf & Hu & _ & Hs & _).
  rewrite apply_charging_color_trace, Hf, Hu, Hs.
  unfold policy_writes. rewrite Hp.
  split; [subst x; cbn; rewrite <- !app_assoc; reflexivity|].
  split; [subst x; cbn; lia|].
  split; [reflexivity|]. split; [reflexivity|].
  intros Hled. rewrite apply_charging_color_policy, Hp. cbn [snd].
  destruct (policy_leds_present cfg c w Hled) as [t Ht]. rewrite Ht.
  destruct (show_frame x t) as (_ & _ & _ & _ & _ & Hl). rewrite Hl.
  reflexivity.
Qed.

Lemma atomic_writes_policy (cfg : config) (b : bool) (w : world) :
  atomic_writes (policy_writes cfg b w) = [].
Proof.
  unfold policy_writes.
  destruct (policy_leds cfg b w) as [[[r g] bl]|]; reflexivity.
Qed.

(** C5: whenever bootstrap gets as far as sampling (feature enabled, STAT
    controller ready and its pin configured, and the LED controllers ready
    and configured if the aliases are present), it stores in the flag the
    conjunction of the two samples, taken 20 ms and 30 ms after entry,
    whatever the flag held before and whether or not the interrupt and the
    callback are installed afterwards: the flag is 1 only when both samples
    read "charging", and two samples that disagree leave it 0. *)
Theorem initial_state_is_conjunction
  (cfg : config) (brd : board) (w : world)
  (Hen : CONFIG_CHARGE_INDICATOR cfg = true)
  (Hchg : chg_dev_ready brd = true)
  (Hpin : chg_pin_configure brd = 0)
  (Hleds : CHARGE_INDICATOR_DISABLE_LED cfg = false ->
           ledr_dev_ready brd = true /\ ledg_dev_ready brd = true /\
           ledb_dev_ready brd = true /\
           ledr_pin_configure brd = 0 /\ ledg_pin_configure brd = 0 /\
           ledb_pin_configure brd = 0) :
  let c1 := chg_stat w (uptime w + 20) =? 0 in
  let c2 := chg_stat w (uptime w + 30) =? 0 in
  let w' := snd (charge_indicator_init cfg brd w) in
  is_charging w' = Z.b2z (c1 && c2) /\
  atomic_writes (trace w') =
    atomic_writes (trace w) ++ [AtomicSet (Z.b2z (c1 && c2))] /\
  (is_charging w' = 1 <-> c1 = true /\ c2 = true) /\
  (c1 <> c2 -> is_charging w' = 0).
Proof.
  cbv zeta.
  set (c := (chg_stat w (uptime w + 20) =? 0) &&
            (chg_stat w (uptime w + 30) =? 0)).
  destruct (after_initial_sample_trace cfg w) as (Ht & _ & Hf & _).
  fold c in Ht, Hf.
  assert (Hstore :
    is_charging (snd (charge_indicator_init cfg brd w)) = Z.b2z c /\
    atomic_writes (trace (snd (charge_indicator_init cfg brd w))) =
      atomic_writes (trace w) ++ [AtomicSet (Z.b2z c)]).
  { assert (Ha : atomic_writes (trace (after_initial_sample cfg w)) =
                 atomic_writes (trace w) ++ [AtomicSet (Z.b2z c)]).
    { rewrite Ht, !atomic_writes_app, atomic_writes_policy.
      cbn. rewrite ?app_nil_r. reflexivity. }
    rewrite init_unfold, Hen, Hchg, Hpin. cbv zeta. cbn [negb Z.eqb].
    destruct (CHARGE_INDICATOR_DISABLE_LED cfg) eqn:Hd; cbn [negb andb].
    - destruct (negb (chg_interrupt_configure brd =? 0));
        [|destruct (negb (chg_add_callback brd =? 0))];
        cbn [snd is_charging trace record];
        rewrite ?atomic_writes_app, Ha, Hf; cbn; rewrite ?app_nil_r; auto.
    - destruct (Hleds eq_refl) as (H1 & H2 & H3 & H4 & H5 & H6).
      rewrite H1, H2, H3, H4, H5, H6. cbn [negb orb Z.eqb].
      destruct (negb (chg_interrupt_configure brd =? 0));
        [|destruct (negb (chg_add_callback brd =? 0))];
        cbn [snd is_charging trace record];
        rewrite ?atomic_writes_app, Ha, Hf; cbn; rewrite ?app_nil_r; auto. }
  destruct Hstore as [Hflag Hatom]. rewrite Hflag, Hatom.
  subst c.
  destruct (chg_stat w (uptime w + 20) =? 0),
           (chg_stat w (uptime w + 30) =? 0); cbn;
    repeat split; intros; try tauto; try congruence; try lia.
  all: match goal with H : _ /\ _ |- _ => destruct H; congruence end.
Qed.

Lemma initial_state_is_conjunction_witness :
  is_charging fresh_plugged_world = 0 /\
  is_charging
    (snd (charge_indicator_init sample_config good_board
            fresh_plugged_world)) = 1 /\
  fst (charge_indicator_init sample_config no_irq_board
         fresh_plugged_world) = -22 /\
  is_charging
    (snd (charge_indicator_init sample_config no_irq_board
            fresh_plugged_world)) = 1.
Proof.
  assert (Hen : CONFIG_CHARGE_INDICATOR sample_config = true)
    by reflexivity.
  assert (Hgood : CHARGE_INDICATOR_DISABLE_LED sample_config = false ->
            ledr_dev_ready good_board = true /\
            ledg_dev_ready good_board = true /\
            ledb_dev_ready good_board = true /\
            ledr_pin_configure good_board = 0 /\
            ledg_pin_configure good_board = 0 /\
            ledb_pin_configure good_board = 0)
    by (intros _; repeat split).
  assert (Hno : CHARGE_INDICATOR_DISABLE_LED sample_config = false ->
            ledr_dev_ready no_irq_board = true /\
            ledg_dev_ready no_irq_board = true /\
            ledb_dev_ready no_irq_board = true /\
            ledr_pin_configure no_irq_board = 0 /\
            ledg_pin_configure no_irq_board = 0 /\
            ledb_pin_configure no_irq_board = 0)
    by (intros _; repeat split).
  split; [reflexivity|].
  split; [exact (proj1 (initial_state_is_conjunction sample_config
                          good_board fresh_plugged_world Hen eq_refl
                          eq_refl Hgood))|].
  split; [reflexivity|].
  exact (proj1 (initial_state_is_conjunction sample_config no_irq_board
                  fresh_plugged_world Hen eq_refl eq_refl Hno)).
Defined.

Lemma policy_writes_gpio (cfg : config) (b : bool) (w : world) (e : event) :
  In e (policy_writes cfg b w) -> is_gpio_set e = true.
Proof.
  unfold policy_writes.
  destruct (policy_leds cfg b w) as [[[r g] bl]|]; cbn; [|tauto].
  intros [H|[H|[H|[]]]]; subst e; reflexivity.
Qed.

Lemma gpio_writes_policy (cfg : config) (b : bool) (w : world) :
  gpio_writes (policy_writes cfg b w) = policy_writes cfg b w.
Proof.
  unfold policy_writes. destruct (policy_leds cfg b w); [|reflexivity].
  apply gpio_writes_rgb.
Qed.

(** X2: with the feature enabled, the maintenance thread is created
    exactly when bootstrap reports success: no failing path starts it. *)
Theorem init_starts_thread_iff_success
  (cfg : config) (brd : board) (w : world)
  (Hen : CONFIG_CHARGE_INDICATOR cfg = true)
  (Hfresh : ~ In ThreadCreate (trace w)) :
  In ThreadCreate (trace (snd (charge_indicator_init cfg brd w))) <->
  fst (charge_indicator_init cfg brd w) = 0.
Proof.
  assert (Hafter : ~ In ThreadCreate (trace (after_initial_sample cfg w))).
  { destruct (after_initial_sample_trace cfg w) as (Ht & _). rewrite Ht.
    rewrite !in_app_iff. intros [H|[H|H]]; [tauto| |].
    - cbn in H. destruct H as [H|[H|[H|[]]]]; discriminate.
    - apply policy_writes_gpio in H. discriminate. }
  rewrite init_unfold, Hen. cbv zeta. cbn [negb].
  destruct (CHARGE_INDICATOR_DISABLE_LED cfg); cbn [negb andb];
  repeat match goal with
  | |- context [if negb (?x =? 0) then _ else _] =>
      destruct (Z.eqb_spec x 0); cbn [negb andb]
  | |- context [if ?b then _ else _] => destruct b; cbn [negb andb]
  end; cbn [fst snd trace record]; unfold ENODEV;
    rewrite ?in_app_iff; cbn [In];
    split; intros H; try lia; try tauto;
    repeat match goal with
    | H : _ \/ _ |- _ => destruct H
    end; try tauto; try discriminate.
Qed.

Lemma init_starts_thread_iff_success_witness :
  CONFIG_CHARGE_INDICATOR sample_config = true /\
  ~ In ThreadCreate (trace idle_world) /\
  ~ In ThreadCreate
      (trace (snd (charge_indicator_init sample_config no_irq_board
                     idle_world))).
Proof.
  assert (Hen : CONFIG_CHARGE_INDICATOR sample_config = true)
    by reflexivity.
  assert (Hfresh : ~ In ThreadCreate (trace idle_world))
    by (cbn; tauto).
  split; [exact Hen|split; [exact Hfresh|]].
  intros H.
  apply (proj1 (init_starts_thread_iff_success sample_config no_irq_board
                  idle_world Hen Hfresh)) in H.
  cbn in H. discriminate.
Defined.

(** X3: when the STAT controller is not ready, or the LED aliases are
    present and one of the LED controllers is not ready, bootstrap returns
    -ENODEV and has touched nothing: no flag store, no GPIO write, no sleep,
    no interrupt, no thread. *)
Theorem init_device_not_ready (cfg : config) (brd : board) (w : world)
  (Hen : CONFIG_CHARGE_INDICATOR cfg = true)
  (Hdev : chg_dev_ready brd = false \/
          (CHARGE_INDICATOR_DISABLE_LED cfg = false /\
           ledr_dev_ready brd && ledg_dev_ready brd && ledb_dev_ready brd
           = false)) :
  charge_indicator_init cfg brd w = (- ENODEV, w).
Proof.
  rewrite init_unfold, Hen. cbv zeta. cbn [negb].
  destruct (chg_dev_ready brd); cbn [negb]; [|reflexivity].
  destruct Hdev as [Hdev|[Hled Hdev]]; [discriminate|].
  rewrite Hled. cbn [negb andb].
  destruct (ledr_dev_ready brd), (ledg_dev_ready brd), (ledb_dev_ready brd);
    try discriminate; reflexivity.
Qed.

Lemma init_device_not_ready_witness :
  CONFIG_CHARGE_INDICATOR sample_config = true /\
  chg_dev_ready dead_board = false /\
  charge_indicator_init sample_config dead_board idle_world =
    (-19, idle_world).
Proof.
  assert (Hen : CONFIG_CHARGE_INDICATOR sample_config = true)
    by reflexivity.
  assert (Hdev : chg_dev_ready dead_board = false) by reflexivity.
  split; [exact Hen|split; [exact Hdev|]].
  exact (init_device_not_ready sample_config dead_board idle_world Hen
           (or_introl Hdev)).
Defined.

(** X4: LED control needs all three aliases.  If any one alias is missing,
    bootstrap never asks the LED drivers anything (its outcome is the same
    whatever they would answer) and writes no LED line. *)
Theorem init_without_aliases_ignores_led_drivers
  (cfg : config) (brd : board) (w : world)
  (rr gr br : bool) (rc gc bc : Z)
  (Hmiss : led_red_okay cfg && led_green_okay cfg && led_blue_okay cfg
           = false) :
  charge_indicator_init cfg (set_led_drivers brd rr gr br rc gc bc) w =
    charge_indicator_init cfg brd w /\
  gpio_writes (trace (snd (charge_indicator_init cfg brd w))) =
    gpio_writes (trace w).
Proof.
  assert (Habs : CHARGE_INDICATOR_DISABLE_LED cfg = true)
    by (unfold CHARGE_INDICATOR_DISABLE_LED; rewrite Hmiss; reflexivity).
  split.
  - rewrite !init_unfold. cbv zeta. rewrite Habs. reflexivity.
  - assert (Hafter : gpio_writes (trace (after_initial_sample cfg w)) =
                     gpio_writes (trace w)).
    { destruct (after_initial_sample_trace cfg w) as (Ht & _). rewrite Ht.
      unfold policy_writes, policy_leds. rewrite Habs.
      rewrite gpio_writes_app. cbn. rewrite app_nil_r. reflexivity. }
    rewrite init_unfold. cbv zeta.
    repeat match goal with
    | |- context [if ?b then _ else _] => destruct b
    end; cbn [snd trace record]; rewrite ?gpio_writes_app, ?Hafter; cbn;
      rewrite ?app_nil_r; reflexivity.
Qed.

Lemma init_without_aliases_ignores_led_drivers_witness :
  led_red_okay two_led_config && led_green_okay two_led_config &&
    led_blue_okay two_led_config = false /\
  charge_indicator_init two_led_config
    (set_led_drivers good_board false false false 5 5 5) charging_world =
  charge_indicator_init two_led_config good_board charging_world.
Proof.
  assert (Hmiss : led_red_okay two_led_config &&
                  led_green_okay two_led_config &&
                  led_blue_okay two_led_config = false) by reflexivity.
  split; [exact Hmiss|].
  exact (proj1 (init_without_aliases_ignores_led_drivers two_led_config
                  good_board charging_world false false false 5 5 5 Hmiss)).
Defined.

(** X5: a successful bootstrap does things in this order: it waits 20 ms
    and 10 ms around the two samples, stores the flag, applies the LED
    policy for that state, and only then configures the interrupt, adds
    the callback and creates the thread; it takes 30 ms of sleep in all. *)
Theorem init_order_of_effects (cfg : config) (brd : board) (w : world)
  (Hen : CONFIG_CHARGE_INDICATOR cfg = true)
  (Hok : fst (charge_indicator_init cfg brd w) = 0) :
  let c := (chg_stat w (uptime w + 20) =? 0) &&
           (chg_stat w (uptime w + 30) =? 0) in
  trace (snd (charge_indicator_init cfg brd w)) =
    trace w ++ [Sleep 20; Sleep 10; AtomicSet (Z.b2z c)] ++
    policy_writes cfg c w ++ [IrqConfigure; AddCallback; ThreadCreate] /\
  uptime (snd (charge_indicator_init cfg brd w)) = uptime w + 30.
Proof.
  cbv zeta. rewrite (init_success cfg brd w Hen Hok).
  destruct (after_initial_sample_trace cfg w) as (Ht & Hu & _).
  cbn [trace record uptime]. rewrite Ht, Hu.
  split; [|reflexivity].
  rewrite <- !app_assoc. reflexivity.
Qed.

Lemma init_order_of_effects_witness :
  CONFIG_CHARGE_INDICATOR sample_config = true /\
  fst (charge_indicator_init sample_config good_board charging_world) = 0 /\
  uptime (snd (charge_indicator_init sample_config good_board
                 charging_world)) = uptime charging_world + 30.
Proof.
  assert (Hen : CONFIG_CHARGE_INDICATOR sample_config = true)
    by reflexivity.
  assert (Hok : fst (charge_indicator_init sample_config good_board
                       charging_world) = 0) by reflexivity.
  split; [exact Hen|split; [exact Hok|]].
  exact (proj2 (init_order_of_effects sample_config good_board
                  charging_world Hen Hok)).
Defined.

(** * Further properties of the running module *)

Lemma run_app (cfg : config) (l1 l2 : list action) (w : world) :
  run cfg (l1 ++ l2) w = run cfg l2 (run cfg l1 w).
Proof. unfold run. apply fold_left_app. Qed.

Lemma irq_shape (cfg : config) (w : world) :
  run_action cfg Irq w =
  let c := chg_stat w (uptime w + 8) =? 0 in
  let x := record (set_flag (record (advance w 8) (Sleep 8)) (Z.b2z c))
                  (AtomicSet (Z.b2z c)) in
  match policy_leds cfg c w with
  | Some t => show x t
  | None => x
  end.
Proof.
  cbn [run_action]. rewrite chg_handler_unfold. cbv zeta.
  rewrite apply_charging_color_policy. cbn [snd].
  match goal with |- context [policy_leds cfg ?c ?x] =>
    rewrite (policy_leds_soc cfg c x w) by reflexivity
  end.
  reflexivity.
Qed.

Lemma notify_shape (cfg : config) (soc : Z) (w : world) :
  run_action cfg (Notify (battery_state_changed soc)) w =
  if is_charging w =? 0 then w
  else match policy_leds cfg true w with
       | Some t => show w t
       | None => w
       end.
Proof.
  cbn [run_action]. rewrite listener_unfold, apply_charging_color_policy.
  reflexivity.
Qed.

Lemma maint_shape (cfg : config) (w : world) :
  run_action cfg Maint w =
  if is_charging w =? 0 then record (advance w 1000) (Sleep 1000)
  else record (advance (match policy_leds cfg true w with
                        | Some t => show w t
                        | None => w
                        end) 150) (Sleep 150).
Proof.
  cbn [run_action]. rewrite maint_iter_unfold, apply_charging_color_policy.
  reflexivity.
Qed.

(** The GPIO writes one step adds. *)
Lemma step_gpio_writes (cfg : config) (a : action) (w : world) :
  gpio_writes (trace (run_action cfg a w)) =
  gpio_writes (trace w) ++
  match a with
  | Irq => policy_writes cfg (chg_stat w (uptime w + 8) =? 0) w
  | Notify (battery_state_changed _) | Maint =>
      if is_charging w =? 0 then [] else policy_writes cfg true w
  | _ => []
  end.
Proof.
  destruct a as [|[soc|name]| |c on|lvl].
  - rewrite irq_shape. cbv zeta. unfold policy_writes.
    destruct (policy_leds cfg _ w) as [t|].
    + rewrite show_trace. cbn [trace record set_flag advance].
      rewrite !gpio_writes_app, gpio_writes_rgb. cbn.
      rewrite !app_nil_r. reflexivity.
    + cbn [trace record set_flag advance].
      rewrite !gpio_writes_app. cbn. rewrite !app_nil_r. reflexivity.
  - rewrite notify_shape. unfold policy_writes.
    destruct (is_charging w =? 0); [rewrite app_nil_r; reflexivity|].
    destruct (policy_leds cfg true w) as [t|];
      [|rewrite app_nil_r; reflexivity].
    rewrite show_trace, gpio_writes_app, gpio_writes_rgb. reflexivity.
  - rewrite app_nil_r. reflexivity.
  - rewrite maint_shape. unfold policy_writes.
    destruct (is_charging w =? 0).
    + cbn [trace record advance]. rewrite gpio_writes_app. reflexivity.
    + cbn [trace record advance].
      destruct (policy_leds cfg true w) as [t|].
      * rewrite show_trace, !gpio_writes_app, gpio_writes_rgb.
        cbn. rewrite app_nil_r. reflexivity.
      * rewrite gpio_writes_app. reflexivity.
  - rewrite app_nil_r. destruct c; reflexivity.
  - rewrite app_nil_r. reflexivity.
Qed.



Lemma applied_leds (cfg : config) (b : bool) (x : world) :
  CHARGE_INDICATOR_DISABLE_LED cfg = false ->
  Some (leds (snd (apply_charging_color cfg b x))) = policy_leds cfg b x.
Proof.
  intros Hled. rewrite apply_charging_color_policy. cbn [snd].
  destruct (policy_leds_present cfg b x Hled) as [t Ht]. rewrite Ht.
  destruct (show_frame x t) as (_ & _ & _ & _ & _ & Hl). rewrite Hl.
  reflexivity.
Qed.

Lemma widget_run_frame (cfg : config) (acts : list action) (w : world) :
  forallb is_widget acts = true ->
  is_charging (run cfg acts w) = is_charging w /\
  state_of_charge (run cfg acts w) = state_of_charge w /\
  trace (run cfg acts w) = trace w.
Proof.
  revert w. induction acts as [|a acts IH]; intros w Hall; [auto|].
  cbn [forallb] in Hall. apply andb_true_iff in Hall.
  destruct Hall as [Ha Hall].
  destruct a as [| | |c on|]; try discriminate.
  unfold run in *. cbn [fold_left run_action].
  destruct (IH (set_pin w c on) Hall) as (Hf & Hs & Ht).
  rewrite Hf, Hs, Ht. destruct c; auto.
Qed.

(** X9: suppression.  While the flag is set and the LED lines are present,
    whatever the widget wrote on the lines, the next turn of the
    maintenance loop, and likewise the next battery event, puts them back
    in the state the charging policy prescribes. *)
Theorem charging_overrides_widget
  (cfg : config) (w : world) (acts : list action) (soc : Z)
  (Hled : CHARGE_INDICATOR_DISABLE_LED cfg = false)
  (Hch : is_charging w <> 0)
  (Hwid : forallb is_widget acts = true) :
  Some (leds (run cfg (acts ++ [Maint]) w)) = policy_leds cfg true w /\
  Some (leds (run cfg (acts ++ [Notify (battery_state_changed soc)]) w)) =
    policy_leds cfg true w.
Proof.
  destruct (widget_run_frame cfg acts w Hwid) as (Hf & Hs & _).
  apply Z.eqb_neq in Hch.
  destruct (policy_leds_present cfg true (run cfg acts w) Hled) as [t Ht].
  assert (Hp : policy_leds cfg true w = Some t)
    by (rewrite <- Ht; apply policy_leds_soc; symmetry; exact Hs).
  destruct (show_frame (run cfg acts w) t) as (_ & _ & _ & _ & _ & Hl).
  rewrite !run_app, Hp. unfold run at 1 3. cbn [fold_left].
  rewrite maint_shape, notify_shape, Hf, Hch, Ht.
  change (leds (record (advance (show (run cfg acts w) t) 150) (Sleep 150)))
    with (leds (show (run cfg acts w) t)).
  rewrite Hl. auto.
Qed.

Lemma charging_overrides_widget_witness :
  CHARGE_INDICATOR_DISABLE_LED sample_config = false /\
  is_charging charging_world <> 0 /\
  forallb is_widget [Widget Green true; Widget Red false] = true /\
  Some (leds (run sample_config
                ([Widget Green true; Widget Red false] ++ [Maint])
                charging_world)) = Some (true, false, true).
Proof.
  assert (Hled : CHARGE_INDICATOR_DISABLE_LED sample_config = false)
    by reflexivity.
  assert (Hch : is_charging charging_world <> 0) by (cbn; lia).
  assert (Hwid : forallb is_widget [Widget Green true; Widget Red false]
                 = true) by reflexivity.
  split; [exact Hled|split; [exact Hch|split; [exact Hwid|]]].
  exact (proj1 (charging_overrides_widget sample_config charging_world
                  [Widget Green true; Widget Red false] 0 Hled Hch Hwid)).
Defined.



(** X11: while the flag is set, the maintenance loop never clears it and
    never stops re-asserting: n turns are n times the policy's writes
    followed by a 150 ms sleep, so the lines are rewritten every 150 ms. *)
Theorem maint_reasserts_while_charging
  (cfg : config) (n : nat) (w : world)
  (Hch : is_charging w <> 0) :
  trace (snd (charging_maint_task cfg n w)) =
    trace w ++
    List.concat (repeat (policy_writes cfg true w ++ [Sleep 150]) n) /\
  uptime (snd (charging_maint_task cfg n w)) = uptime w + 150 * Z.of_nat n /\
  is_charging (snd (charging_maint_task cfg n w)) = is_charging w.
Proof.
  revert w Hch. induction n as [|n IH]; intros w Hch.
  - cbn. rewrite app_nil_r. repeat split. lia.
  - rewrite maint_task_S.
    change (snd (charging_maint_iter cfg w)) with (run_action cfg Maint w).
    pose proof Hch as Hb. apply Z.eqb_neq in Hb.
    assert (Hstep : is_charging (run_action cfg Maint w) = is_charging w /\
              uptime (run_action cfg Maint w) = uptime w + 150 /\
              state_of_charge (run_action cfg Maint w) = state_of_charge w /\
              trace (run_action cfg Maint w) =
                trace w ++ policy_writes cfg true w ++ [Sleep 150]).
    { rewrite maint_shape, Hb. unfold policy_writes.
      destruct (policy_leds cfg true w) as [t|].
      - destruct (show_frame w t) as (Hf & Hu & _ & Hs & _).
        cbn [is_charging uptime state_of_charge trace record advance].
        rewrite Hf, Hu, Hs, show_trace, <- app_assoc. auto.
      - cbn. auto. }
    destruct Hstep as (Hf & Hu & Hs & Ht).
    destruct (IH (run_action cfg Maint w)) as (IHt & IHu & IHf);
      [rewrite Hf; exact Hch|].
    rewrite IHt, IHu, IHf, Ht, Hu, Hf.
    unfold policy_writes.
    rewrite (policy_leds_soc cfg true (run_action cfg Maint w) w Hs).
    cbn [repeat List.concat]. rewrite <- !app_assoc.
    repeat split. lia.
Qed.

Lemma maint_reasserts_while_charging_witness :
  is_charging charging_world <> 0 /\
  uptime (snd (charging_maint_task sample_config 4 charging_world)) =
    uptime charging_world + 150 * Z.of_nat 4.
Proof.
  assert (Hch : is_charging charging_world <> 0) by (cbn; lia).
  split; [exact Hch|].
  exact (proj1 (proj2 (maint_reasserts_while_charging sample_config 4
                         charging_world Hch))).
Defined.

(** X12: applying the same charging state twice in a row leaves the lines
    as one application does; the second application only repeats the same
    writes. *)
Theorem apply_charging_color_idempotent
  (cfg : config) (b : bool) (w : world) :
  let w1 := snd (apply_charging_color cfg b w) in
  let w2 := snd (apply_charging_color cfg b w1) in
  leds w2 = leds w1 /\
  trace w1 = trace w ++ policy_writes cfg b w /\
  trace w2 = trace w1 ++ policy_writes cfg b w.
Proof.
  cbv zeta. rewrite !apply_charging_color_trace.
  rewrite !apply_charging_color_policy. cbn [snd]. unfold policy_writes.
  destruct (policy_leds cfg b w) as [t|] eqn:Ht.
  - destruct (show_frame w t) as (_ & _ & _ & Hs & _ & Hl).
    rewrite (policy_leds_soc cfg b (show w t) w Hs), Ht.
    destruct (show_frame (show w t) t) as (_ & _ & _ & _ & _ & Hl2).
    rewrite Hl, Hl2. auto.
  - rewrite Ht. auto.
Qed.

(** X13: the thresholds are not checked for order.  When the low threshold
    is not above the critical one, no percentage selects the low color:
    the result is the missing, critical, medium or high color. *)
Theorem low_band_empty_when_misordered (cfg : config) (w : world)
  (Hmis : CONFIG_CHG_BATTERY_LEVEL_LOW cfg <=
          CONFIG_CHG_BATTERY_LEVEL_CRITICAL cfg) :
  In (fst (get_battery_level_color cfg w))
     [CONFIG_CHG_BATTERY_COLOR_MISSING cfg;
      CONFIG_CHG_BATTERY_COLOR_CRITICAL cfg;
      CONFIG_CHG_BATTERY_COLOR_MEDIUM cfg;
      CONFIG_CHG_BATTERY_COLOR_HIGH cfg].
Proof.
  rewrite get_battery_level_color_uint8. cbn [fst].
  unfold threshold_color_spec.
  destruct (_ || _); [cbn; auto|].
  destruct (Z.ltb_spec (to_uint8 (state_of_charge w))
              (CONFIG_CHG_BATTERY_LEVEL_CRITICAL cfg)); [cbn; auto|].
  destruct (Z.ltb_spec (to_uint8 (state_of_charge w))
              (CONFIG_CHG_BATTERY_LEVEL_LOW cfg)); [lia|].
  destruct (_ <? _); cbn; auto.
Qed.

Lemma low_band_empty_when_misordered_witness :
  CONFIG_CHG_BATTERY_LEVEL_LOW (set_thresholds sample_config 30 10 80) <=
    CONFIG_CHG_BATTERY_LEVEL_CRITICAL (set_thresholds sample_config 30 10 80)
  /\
  In (fst (get_battery_level_color (set_thresholds sample_config 30 10 80)
             (set_soc idle_world 20)))
     [4; 1; 2; 7].
Proof.
  assert (Hmis : CONFIG_CHG_BATTERY_LEVEL_LOW
                   (set_thresholds sample_config 30 10 80) <=
                 CONFIG_CHG_BATTERY_LEVEL_CRITICAL
                   (set_thresholds sample_config 30 10 80)) by (cbn; lia).
  split; [exact Hmis|].
  exact (low_band_empty_when_misordered
           (set_thresholds sample_config 30 10 80) (set_soc idle_world 20)
           Hmis).
Defined.

(** * Single runs, and a run interrupted after its read of the flag *)

(** X6: one run of the edge handler, of the listener or of a turn of the
    maintenance loop, taken by itself, writes no LED line or exactly one
    complete red-green-blue update; none of them writes one line alone. *)
Theorem handlers_write_whole_triples
  (cfg : config) (eh : zmk_event) (w : world) :
  at_most_one_triple (trace w) (trace (snd (chg_handler cfg w))) /\
  at_most_one_triple (trace w)
    (trace (snd (battery_state_changed_listener cfg eh w))) /\
  at_most_one_triple (trace w) (trace (snd (charging_maint_iter cfg w))).
Proof.
  assert (Hstep : forall a, at_most_one_triple (trace w)
                              (trace (run_action cfg a w))).
  { intros a. unfold at_most_one_triple.
    rewrite step_gpio_writes. unfold policy_writes.
    destruct a as [|[soc|name]| |c on|lvl];
      repeat match goal with
      | |- context [if ?b then _ else _] => destruct b
      | |- context [match policy_leds ?c ?b ?x with _ => _ end] =>
          destruct (policy_leds c b x) as [t|]
      end;
      solve [exists []; split; [cbn; lia|reflexivity]
            | eexists [_]; split; [cbn; lia|reflexivity]]. }
  split; [exact (Hstep Irq)|].
  split; [exact (Hstep (Notify eh))|exact (Hstep Maint)].
Qed.

(** X8: with the LED lines present, one run of the edge handler leaves
    the lines in the state the policy prescribes for the reading it
    stored, whatever they showed before: all off for "not charging", the
    charging state for "charging". *)
Theorem edge_handler_sets_lines (cfg : config) (w : world)
  (Hled : CHARGE_INDICATOR_DISABLE_LED cfg = false) :
  let c := chg_stat w (uptime w + 8) =? 0 in
  let w' := snd (chg_handler cfg w) in
  is_charging w' = Z.b2z c /\
  Some (leds w') = policy_leds cfg c w /\
  (c = false -> leds w' = (false, false, false)).
Proof.
  cbv zeta. rewrite chg_handler_unfold. cbv zeta.
  set (c := chg_stat w (uptime w + 8) =? 0).
  set (x := record (set_flag (record (advance w 8) (Sleep 8)) (Z.b2z c))
                   (AtomicSet (Z.b2z c))).
  destruct (apply_charging_color_frame cfg c x) as (Hf & _).
  pose proof (applied_leds cfg c x Hled) as Hl.
  rewrite (policy_leds_soc cfg c x w eq_refl) in Hl.
  split; [rewrite Hf; reflexivity|].
  split; [exact Hl|].
  intros Hc. rewrite Hc in Hl. unfold policy_leds in Hl.
  rewrite Hled in Hl. congruence.
Qed.

Lemma edge_handler_sets_lines_witness :
  CHARGE_INDICATOR_DISABLE_LED sample_config = false /\
  leds fresh_plugged_world = (false, false, false) /\
  Some (leds (snd (chg_handler sample_config fresh_plugged_world))) =
    Some (true, false, true).
Proof.
  assert (Hled : CHARGE_INDICATOR_DISABLE_LED sample_config = false)
    by reflexivity.
  split; [exact Hled|split; [reflexivity|]].
  exact (proj1 (proj2 (edge_handler_sets_lines sample_config
                         fresh_plugged_world Hled))).
Defined.

(** The loop turn and the listener are their read of the flag followed by
    the halves defined above. *)
Lemma maint_iter_split (cfg : config) (w : world) :
  charging_maint_iter cfg w =
  (flag <- atomic_get ;; maint_after_read cfg flag) w.
Proof. reflexivity. Qed.

Lemma listener_split (cfg : config) (soc : Z) (w : world) :
  battery_state_changed_listener cfg (battery_state_changed soc) w =
  (flag <- atomic_get ;; listener_after_read cfg flag) w.
Proof. reflexivity. Qed.

(** X14: no lock protects the flag and the lines.  If the loop turn, or
    the listener, has read the flag as set and the edge handler then runs
    and finds the charger removed, the resumed loop turn or listener
    re-applies the charging state: the flag is 0 while the lines show the
    charging state, and further turns of the loop only sleep and do not
    put the lines back. *)
Theorem stale_flag_read_relights_lines
  (cfg : config) (w : world) (n : nat)
  (Hled : CHARGE_INDICATOR_DISABLE_LED cfg = false)
  (Hch : is_charging w <> 0)
  (Hraw : chg_stat w (uptime w + 8) <> 0) :
  let flag := fst (atomic_get w) in
  let w1 := snd (chg_handler cfg (snd (atomic_get w))) in
  let w2 := snd (maint_after_read cfg flag w1) in
  let w3 := snd (listener_after_read cfg flag w1) in
  is_charging w1 = 0 /\ leds w1 = (false, false, false) /\
  is_charging w2 = 0 /\ Some (leds w2) = policy_leds cfg true w /\
  is_charging w3 = 0 /\ Some (leds w3) = policy_leds cfg true w /\
  leds (snd (charging_maint_task cfg n w2)) = leds w2 /\
  is_charging (snd (charging_maint_task cfg n w2)) = 0.
Proof.
  cbv zeta. unfold atomic_get. cbn [fst snd].
  apply Z.eqb_neq in Hch. apply Z.eqb_neq in Hraw.
  unfold maint_after_read, listener_after_read. rewrite Hch. cbn [negb].
  rewrite chg_handler_unfold. cbv zeta. rewrite Hraw.
  set (x := record (set_flag (record (advance w 8) (Sleep 8)) (Z.b2z false))
                   (AtomicSet (Z.b2z false))).
  rewrite apply_charging_color_false, Hled. cbn [snd].
  set (w1 := show x (false, false, false)).
  assert (H1 : is_charging w1 = 0) by reflexivity.
  assert (Hs1 : state_of_charge w1 = state_of_charge w) by reflexivity.
  destruct (apply_charging_color_frame cfg true w1) as (Hf & _).
  pose proof (applied_leds cfg true w1 Hled) as Hl.
  rewrite (policy_leds_soc cfg true w1 w Hs1) in Hl.
  assert (H2 : snd ((apply_charging_color cfg true ;; k_sleep 150) w1) =
               record (advance (snd (apply_charging_color cfg true w1)) 150)
                      (Sleep 150)).
  { unfold bind, k_sleep.
    destruct (apply_charging_color cfg true w1); reflexivity. }
  assert (H3 : snd ((apply_charging_color cfg true ;; mret 0) w1) =
               snd (apply_charging_color cfg true w1)).
  { unfold bind, mret.
    destruct (apply_charging_color cfg true w1); reflexivity. }
  rewrite H2, H3.
  change (leds (record (advance (snd (apply_charging_color cfg true w1)) 150)
                  (Sleep 150)))
    with (leds (snd (apply_charging_color cfg true w1))).
  assert (H20 : is_charging
                  (record (advance (snd (apply_charging_color cfg true w1))
                             150) (Sleep 150)) = 0)
    by (cbn [is_charging record advance]; rewrite Hf; exact H1).
  destruct (maint_idle cfg n _ H20) as (_ & Hidle & Hflag).
  rewrite Hidle, Hflag, Hf.
  change (leds (record (advance (snd (apply_charging_color cfg true w1)) 150)
                  (Sleep 150)))
    with (leds (snd (apply_charging_color cfg true w1))).
  repeat split; auto.
Qed.

Lemma stale_flag_read_relights_lines_witness :
  CHARGE_INDICATOR_DISABLE_LED sample_config = false /\
  is_charging unplugged_world <> 0 /\
  chg_stat unplugged_world (uptime unplugged_world + 8) <> 0 /\
  is_charging
    (snd (maint_after_read sample_config (fst (atomic_get unplugged_world))
            (snd (chg_handler sample_config
                    (snd (atomic_get unplugged_world)))))) = 0 /\
  Some (leds
    (snd (maint_after_read sample_config (fst (atomic_get unplugged_world))
            (snd (chg_handler sample_config
                    (snd (atomic_get unplugged_world))))))) =
  Some (true, false, true).
Proof.
  assert (Hled : CHARGE_INDICATOR_DISABLE_LED sample_config = false)
    by reflexivity.
  assert (Hch : is_charging unplugged_world <> 0) by (cbn; lia).
  assert (Hraw : chg_stat unplugged_world (uptime unplugged_world + 8) <> 0)
    by (cbn; lia).
  split; [exact Hled|split; [exact Hch|split; [exact Hraw|]]].
  pose proof (stale_flag_read_relights_lines sample_config unplugged_world
                2 Hled Hch Hraw) as H.
  cbv zeta in H.
  destruct H as (_ & _ & H2 & H3 & _).
  split; [exact H2|exact H3].
Defined.
